(** * pytorch-lmdb: the LMDB-backed dataset, the timing meters and the
      benchmark driver of [main.py], embedded in Rocq.

    Python objects are mutable, so every method is written as a function
    from the state before the call to an outcome and the state after it.
    An exception is an outcome like any other: the state that the method
    had already written when it raised is kept. *)

From Stdlib Require Import ZArith QArith Qcanon List Lia Permutation.
From Stdlib Require Import SpecFloat.
From stdpp Require Import base gmap strings list fin_maps.

Open Scope Z_scope.

(** ** Exceptions and outcomes *)

(** The Python exceptions that the modelled code can raise. *)
Inductive exn : Type :=
  | LmdbError            (* lmdb.Error: the environment cannot be opened *)
  | IndexError           (* sequence index out of range *)
  | TypeError            (* wrong kind of object for the operation *)
  | AttributeError       (* the object has no such attribute *)
  | UnpicklingError      (* pickle.loads on bytes that are no pickle *)
  | UnidentifiedImageError (* PIL cannot decode the image bytes *)
  | FileNotFoundError    (* the image folder does not exist *)
  | ZeroDivisionError
  | OverflowError        (* an int too large for a float *)
  | BadValsizeError      (* lmdb.BadValsizeError: a key of length zero *)
  | ValueError
  | SameFileError        (* shutil.SameFileError *)
  | OSError.             (* a file that cannot be opened *)

Inductive result (A : Type) : Type :=
  | Ok (a : A)
  | Raise (e : exn).
Arguments Ok {A} a.
Arguments Raise {A} e.

Definition is_Ok {A} (r : result A) : Prop :=
  match r with Ok _ => True | Raise _ => False end.

(** A computation over a mutable state [S] that returns or raises. *)
Definition M (S A : Type) : Type := S -> result A * S.

Definition ret {S A} (a : A) : M S A := fun s => (Ok a, s).
Definition raise {S A} (e : exn) : M S A := fun s => (Raise e, s).
Definition bind {S A B} (m : M S A) (k : A -> M S B) : M S B :=
  fun s => match m s with
           | (Ok a, s') => k a s'
           | (Raise e, s') => (Raise e, s')
           end.
Definition get_state {S} : M S S := fun s => (Ok s, s).
Definition modify {S} (f : S -> S) : M S unit := fun s => (Ok tt, f s).
(** An outcome computed without touching the state. *)
Definition lift_result {S A} (r : result A) : M S A := fun s => (r, s).

(** Sequencing of outcomes where there is no state. *)
Definition and_then {A B} (r : result A) (k : A -> result B) : result B :=
  match r with
  | Ok a => k a
  | Raise e => Raise e
  end.

Declare Scope py_scope.
Delimit Scope py_scope with py.
Notation "x <- m ;; k" := (bind m (fun x => k))
  (at level 100, m at next level, right associativity) : py_scope.
Notation "m ;;; k" := (bind m (fun _ => k))
  (at level 100, right associativity) : py_scope.

(** ** Numbers

    A Python number is an int, which is unbounded, or a float, which is
    an IEEE 754 binary64 value.  The float operations are those of
    [SpecFloat] at precision 53 and maximal exponent 1024, rounding to
    nearest with ties to even.  An operation on an int and a float first
    converts the int, which raises when the int is beyond the floats;
    the operations on two floats never raise, except division by zero. *)

Inductive pynum : Type :=
  | PyInt (z : Z)
  | PyFloat (f : spec_float).

Definition float_add : spec_float -> spec_float -> spec_float := SFadd 53 1024.
Definition float_sub : spec_float -> spec_float -> spec_float := SFsub 53 1024.
Definition float_mul : spec_float -> spec_float -> spec_float := SFmul 53 1024.
Definition float_div : spec_float -> spec_float -> spec_float := SFdiv 53 1024.

(** What an operation gives when infinity stands for a result that no
    float can hold. *)
Definition finite_or_overflow (f : spec_float) : result spec_float :=
  match f with
  | S754_infinity _ => Raise OverflowError
  | _ => Ok f
  end.

(** [float(z)]: the float nearest to [z]. *)
Definition float_of_int (z : Z) : result spec_float :=
  finite_or_overflow (binary_normalize 53 1024 z 0 false).

Definition to_float (x : pynum) : result spec_float :=
  match x with
  | PyInt z => float_of_int z
  | PyFloat f => Ok f
  end.

(** A float operation on two numbers, the left one converted first. *)
Definition float_op (op : spec_float -> spec_float -> spec_float)
    (a b : pynum) : result pynum :=
  and_then (to_float a) (fun x =>
  and_then (to_float b) (fun y =>
  Ok (PyFloat (op x y)))).

(** [a + b], [a - b] and [a * b]: exact on two ints. *)
Definition py_add (a b : pynum) : result pynum :=
  match a, b with
  | PyInt x, PyInt y => Ok (PyInt (x + y))
  | _, _ => float_op float_add a b
  end.

Definition py_sub (a b : pynum) : result pynum :=
  match a, b with
  | PyInt x, PyInt y => Ok (PyInt (x - y))
  | _, _ => float_op float_sub a b
  end.

Definition py_mul (a b : pynum) : result pynum :=
  match a, b with
  | PyInt x, PyInt y => Ok (PyInt (x * y))
  | _, _ => float_op float_mul a b
  end.

Definition is_zero (f : spec_float) : bool :=
  match f with
  | S754_zero _ => true
  | _ => false
  end.

(** A float that is neither zero nor no number. *)
Definition nonzero_number (f : spec_float) : Prop :=
  match f with
  | S754_zero _ | S754_nan => False
  | _ => True
  end.

(** An int as the operand of a division: sign, magnitude, exponent 0. *)
Definition int_operand (z : Z) : spec_float :=
  match z with
  | Z0 => S754_zero false
  | Zpos p => S754_finite false p 0
  | Zneg p => S754_finite true p 0
  end.

(** [a / b].  On two ints the quotient of the integers themselves is
    rounded once, to the nearest float, and a quotient beyond the floats
    raises; otherwise both are floats after conversion.  A zero divisor
    raises. *)
Definition py_truediv (a b : pynum) : result pynum :=
  match a, b with
  | PyInt x, PyInt y =>
      if y =? 0 then Raise ZeroDivisionError
      else and_then
             (finite_or_overflow (float_div (int_operand x) (int_operand y)))
             (fun q => Ok (PyFloat q))
  | _, _ =>
      and_then (to_float a) (fun x =>
      and_then (to_float b) (fun y =>
      if is_zero y then Raise ZeroDivisionError
      else Ok (PyFloat (float_div x y))))
  end.



(** ** class AverageMeter (main.py, lines 189-206) *)

Module AverageMeter.

(** [val], [avg] and [sum] hold numbers; [count] is an int, as is every
    weight [n] that the program passes. *)
Record t : Type := mk {
  val : pynum;
  avg : pynum;
  sum : pynum;
  count : Z;
  avg_values : list pynum
}.

(** [reset]: the five assignments of lines 195-199. *)
Definition reset : M t unit :=
  modify (fun _ => {| val := PyInt 0; avg := PyInt 0; sum := PyInt 0;
                      count := 0; avg_values := [] |}).

(** [__init__] runs [reset] on the new object; the attributes do not
    exist before, so the object it starts from is irrelevant. *)
Definition new : t :=
  snd (reset {| val := PyInt 0; avg := PyInt 0; sum := PyInt 0; count := 0;
                avg_values := [] |}).

Definition set_val (v : pynum) (m : t) : t :=
  {| val := v; avg := avg m; sum := sum m; count := count m;
     avg_values := avg_values m |}.
Definition set_sum (s : pynum) (m : t) : t :=
  {| val := val m; avg := avg m; sum := s; count := count m;
     avg_values := avg_values m |}.
Definition set_count (c : Z) (m : t) : t :=
  {| val := val m; avg := avg m; sum := sum m; count := c;
     avg_values := avg_values m |}.
Definition set_avg (a : pynum) (m : t) : t :=
  {| val := val m; avg := a; sum := sum m; count := count m;
     avg_values := avg_values m |}.
Definition append_avg_values (a : pynum) (m : t) : t :=
  {| val := val m; avg := avg m; sum := sum m; count := count m;
     avg_values := avg_values m ++ [a] |}.

(** [update(val, n)], statement by statement (lines 202-206). *)
Definition update (v : pynum) (n : Z) : M t unit :=
  (modify (set_val v) ;;;
   self <- get_state ;;
   p <- lift_result (py_mul v (PyInt n)) ;;
   s <- lift_result (py_add (sum self) p) ;;
   modify (set_sum s) ;;;
   self <- get_state ;;
   modify (set_count (count self + n)) ;;;
   self <- get_state ;;
   q <- lift_result (py_truediv (sum self) (PyInt (count self))) ;;
   modify (set_avg q) ;;;
   self <- get_state ;;
   modify (append_avg_values (avg self)))%py.

(** A sequence of calls [update(v_1, n_1); ...; update(v_k, n_k)]; an
    exception ends the sequence. *)
Fixpoint updates (calls : list (pynum * Z)) : M t unit :=
  match calls with
  | [] => ret tt
  | (v, n) :: rest => (update v n ;;; updates rest)%py
  end.

(** Σ n_i over a list of calls. *)
Fixpoint total_weight (calls : list (pynum * Z)) : Z :=
  match calls with
  | [] => 0
  | (_, n) :: rest => n + total_weight rest
  end.

(** [(...((s + v_1 * n_1) + v_2 * n_2) + ...) + v_k * n_k] in Python's
    arithmetic: every product and every partial sum is rounded when a
    float is involved. *)
Fixpoint accumulate (s : pynum) (calls : list (pynum * Z)) : result pynum :=
  match calls with
  | [] => Ok s
  | (v, n) :: rest =>
      and_then (py_mul v (PyInt n)) (fun p =>
      and_then (py_add s p) (fun s' =>
      accumulate s' rest))
  end.


(** The average after the first [S k] calls, from a meter that held the
    sum [s] and the count [c]: Python's quotient of the accumulated sum
    by the accumulated count. *)
Definition running_from (s : pynum) (c : Z) (calls : list (pynum * Z))
    (k : nat) : result pynum :=
  and_then (accumulate s (firstn (S k) calls)) (fun s' =>
  py_truediv s' (PyInt (c + total_weight (firstn (S k) calls)))).


End AverageMeter.

(** ** Python values

    Byte strings are Rocq strings.  [pyobj] is the part of Python's
    object universe that a pickled archive entry can contain, plus the
    decoded RGB image that PIL produces from the stored image bytes. *)

Abbreviation bytes := string (only parsing).
Definition pixel : Type := (Z * Z * Z)%type.
Definition image : Type := list (list pixel).   (* rows of pixels *)

#[warnings="-register-all"] Inductive pyobj : Type :=
  | PNone
  | PInt (z : Z)
  | PBytes (b : bytes)
  | PList (l : list pyobj)
  | PTuple (l : list pyobj)
  | PImage (img : image).

(** [l[i]] on a Python sequence of length [n]: a negative [i] is first
    shifted by [n]; what is then outside [0, n) raises IndexError. *)
Definition seq_index {A} (l : list A) (i : Z) : result A :=
  let n := Z.of_nat (length l) in
  let j := if i <? 0 then i + n else i in
  if (j <? 0) || (n <=? j) then Raise IndexError
  else match nth_error l (Z.to_nat j) with
       | Some x => Ok x
       | None => Raise IndexError
       end.

(** A sample is the pair [(img, target)] that a dataset returns for an
    index; a batch is the samples that the loader has put together. *)
Definition batch : Type := list (pyobj * pyobj).

(** [o[i]] for an integer [i]. *)
Definition py_getitem (o : pyobj) (i : Z) : result pyobj :=
  match o with
  | PList l | PTuple l => seq_index l i
  | PBytes b =>
      match seq_index (String.list_ascii_of_string b) i with
      | Ok c => Ok (PInt (Z.of_nat (Ascii.nat_of_ascii c)))
      | Raise e => Raise e
      end
  | PNone | PInt _ | PImage _ => Raise TypeError
  end.

(** ** The world outside the Python process *)

(** torch's global random generator: the uniform draws it will hand out
    and how many have been consumed. *)
Record Rng : Type := { draws : nat -> Qc; cursor : nat }.

(** [torch.rand(1)] *)
Definition torch_rand : M Rng Qc :=
  fun g => (Ok (draws g (cursor g)),
            {| draws := draws g; cursor := S (cursor g) |}).

(** The wall clock: the floats [time.time()] will return, in order. *)
Record Clock : Type := { readings : nat -> spec_float; ticks : nat }.

Definition time_time : M Clock spec_float :=
  fun c => (Ok (readings c (ticks c)),
            {| readings := readings c; ticks := S (ticks c) |}).

(** A line of the summary written to standard output (lines 127-131). *)
Inductive line : Type :=
  | Timings_for (dataset_type : string)
  | Avg_data_time (x : pynum)
  | Avg_batch_time (x : pynum)
  | Total_data_time (x : pynum)
  | Total_batch_time (x : pynum).

(** The process and what it works on.  [conns] counts the environments
    that this process has opened; the workers of a loader are processes
    of their own, working on copies of the dataset.  The model that is
    trained is known by its history: the batches it has been stepped
    on since it was created. *)
Record World : Type := {
  fs : gmap string (gmap bytes bytes);  (* archives by path *)
  folders : gset string;                (* image-folder roots *)
  conns : nat;                          (* lmdb environments opened so far *)
  rng : Rng;
  clock : Clock;
  epoch : nat;                          (* loader passes started so far *)
  trained : list batch;                 (* optimizer steps taken so far *)
  stdout : list line
}.

Definition set_conns (n : nat) (w : World) : World :=
  {| fs := fs w; folders := folders w; conns := n; rng := rng w;
     clock := clock w; epoch := epoch w; trained := trained w;
     stdout := stdout w |}.
Definition set_rng (g : Rng) (w : World) : World :=
  {| fs := fs w; folders := folders w; conns := conns w; rng := g;
     clock := clock w; epoch := epoch w; trained := trained w;
     stdout := stdout w |}.
Definition set_clock (c : Clock) (w : World) : World :=
  {| fs := fs w; folders := folders w; conns := conns w; rng := rng w;
     clock := c; epoch := epoch w; trained := trained w;
     stdout := stdout w |}.
Definition set_epoch (n : nat) (w : World) : World :=
  {| fs := fs w; folders := folders w; conns := conns w; rng := rng w;
     clock := clock w; epoch := n; trained := trained w;
     stdout := stdout w |}.
Definition set_trained (l : list batch) (w : World) : World :=
  {| fs := fs w; folders := folders w; conns := conns w; rng := rng w;
     clock := clock w; epoch := epoch w; trained := l;
     stdout := stdout w |}.
Definition set_stdout (o : list line) (w : World) : World :=
  {| fs := fs w; folders := folders w; conns := conns w; rng := rng w;
     clock := clock w; epoch := epoch w; trained := trained w;
     stdout := o |}.

(** Run a computation on one component of a larger state. *)
Definition zoom {S T A} (proj : S -> T) (inj : T -> S -> S)
    (m : M T A) : M S A :=
  fun s => let '(r, t') := m (proj s) in (r, inj t' s).

Definition with_rng {A} : M Rng A -> M World A := zoom rng set_rng.
Definition with_clock {A} : M Clock A -> M World A := zoom clock set_clock.

Definition print (l : line) : M World unit :=
  modify (fun w => set_stdout (stdout w ++ [l]) w).

(** ** lmdb *)

Module lmdb.

Record Environment : Type := { env_id : nat; env_path : string }.

(** A read transaction sees the archive as it was when it began. *)
Record Transaction : Type :=
  { txn_env : Environment; view : gmap bytes bytes }.

(** [lmdb.open(path, readonly=True, ...)] raises when there is no
    archive at [path]; every environment opened gets the next id. *)
Definition open (path : string) : M World Environment :=
  fun w => match fs w !! path with
           | Some _ => (Ok {| env_id := conns w; env_path := path |},
                        set_conns (S (conns w)) w)
           | None => (Raise LmdbError, w)
           end.

(** [env.begin(write=False)] *)
Definition begin (env : Environment) : M World Transaction :=
  fun w => match fs w !! env_path env with
           | Some a => (Ok {| txn_env := env; view := a |}, w)
           | None => (Raise LmdbError, w)
           end.

(** What a lookup of the byte string [k] gives in the archive [A]: LMDB
    has no key of length zero and refuses to look one up; a missing key
    gives None. *)
Definition lookup (A : gmap bytes bytes) (k : bytes) : result (option bytes) :=
  if String.eqb k "" then Raise BadValsizeError else Ok (A !! k).

(** [txn.get(key)]: the key has to be a byte string. *)
Definition get (txn : Transaction) (key : pyobj) : result (option bytes) :=
  match key with
  | PBytes k => lookup (view txn) k
  | _ => Raise TypeError
  end.

End lmdb.

(** The environment and the transaction that [open_lmdb] creates in the
    world [w] for the path [p] holding the archive [A]. *)
Definition new_env (p : string) (w : World) : lmdb.Environment :=
  {| lmdb.env_id := conns w; lmdb.env_path := p |}.
Definition new_txn (p : string) (w : World) (A : gmap bytes bytes)
    : lmdb.Transaction :=
  {| lmdb.txn_env := new_env p w; lmdb.view := A |}.

(** ** The decoders the dataset calls: pickle and PIL *)

Class Codec : Type := {
  (** [pickle.loads] on a byte string *)
  pickle_loads : bytes -> result pyobj;
  (** [Image.open(buf).convert('RGB')] on a buffer holding the bytes *)
  Image_open : bytes -> result image
}.

(** [pickle.loads(txn.get(...))]: None is no bytes-like object. *)
Definition loads {codec : Codec} (byteflow : option bytes) : result pyobj :=
  match byteflow with
  | Some b => pickle_loads b
  | None => Raise TypeError
  end.

(** [buf.write(o)] followed by reading the image back from [buf]. *)
Definition open_image {codec : Codec} (o : pyobj) : result pyobj :=
  match o with
  | PBytes b => match Image_open b with
                | Ok img => Ok (PImage img)
                | Raise e => Raise e
                end
  | _ => Raise TypeError
  end.

(** A transform is a callable that may draw from the random generator. *)
Definition callable : Type := pyobj -> M Rng pyobj.

(** ** class ImageFolderLMDB (main.py, lines 23-74) *)

Module ImageFolderLMDB.

(** The attributes of the object.  [env] and [txn] do not exist until
    [open_lmdb] creates them: [hasattr(self, 'txn')] is [txn <> None]. *)
Record t : Type := mk {
  db_path : string;
  transform : option callable;
  target_transform : option callable;
  length : pyobj;
  keys : pyobj;
  env : option lmdb.Environment;
  txn : option lmdb.Transaction
}.

Definition set_length (o : pyobj) (h : t) : t :=
  {| db_path := db_path h; transform := transform h;
     target_transform := target_transform h; length := o; keys := keys h;
     env := env h; txn := txn h |}.
Definition set_keys (o : pyobj) (h : t) : t :=
  {| db_path := db_path h; transform := transform h;
     target_transform := target_transform h; length := length h; keys := o;
     env := env h; txn := txn h |}.
Definition set_env (e : lmdb.Environment) (h : t) : t :=
  {| db_path := db_path h; transform := transform h;
     target_transform := target_transform h; length := length h;
     keys := keys h; env := Some e; txn := txn h |}.
Definition set_txn (x : lmdb.Transaction) (h : t) : t :=
  {| db_path := db_path h; transform := transform h;
     target_transform := target_transform h; length := length h;
     keys := keys h; env := env h; txn := Some x |}.

(** The state of a method call: the object and the world. *)
Definition on_self {A} : M t A -> M (t * World) A :=
  zoom fst (fun h s => (h, snd s)).
Definition on_world {A} : M World A -> M (t * World) A :=
  zoom snd (fun w s => (fst s, w)).

Section Methods.
Context {codec : Codec}.

(** [__init__] (lines 24-34).  The environment and the transaction
    are locals; the new object gets [length] and [keys] only.  When a
    statement raises no object is returned. *)
Definition __init__ (db_path : string)
    (transform target_transform : option callable) : M World t :=
  (env <- lmdb.open db_path ;;
   txn <- lmdb.begin env ;;
   g <- lift_result (lmdb.get txn (PBytes "__len__")) ;;
   length <- lift_result (loads g) ;;
   g <- lift_result (lmdb.get txn (PBytes "__keys__")) ;;
   keys <- lift_result (loads g) ;;
   ret {| db_path := db_path; transform := transform;
          target_transform := target_transform;
          length := length; keys := keys;
          env := None; txn := None |})%py.

(** [open_lmdb] (lines 36-42): four attribute assignments. *)
Definition open_lmdb : M (t * World) unit :=
  (self <- on_self get_state ;;
   e <- on_world (lmdb.open (db_path self)) ;;
   on_self (modify (set_env e)) ;;;
   x <- on_world (lmdb.begin e) ;;
   on_self (modify (set_txn x)) ;;;
   g <- lift_result (lmdb.get x (PBytes "__len__")) ;;
   o <- lift_result (loads g) ;;
   on_self (modify (set_length o)) ;;;
   g <- lift_result (lmdb.get x (PBytes "__keys__")) ;;
   o <- lift_result (loads g) ;;
   on_self (modify (set_keys o)))%py.

(** Lines 50-60: the stored record is unpickled, its image bytes are
    decoded and its label is taken. *)
Definition decode (byteflow : option bytes) : result (pyobj * pyobj) :=
  and_then (loads byteflow) (fun unpacked =>
  and_then (py_getitem unpacked 0) (fun imgbuf =>
  and_then (py_getitem imgbuf 0) (fun b =>
  and_then (open_image b) (fun img =>
  and_then (py_getitem unpacked 1) (fun target =>
  Ok (img, target)))))).

(** [f(o)] when [f is not None]. *)
Definition apply_transform (f : option callable) (o : pyobj) : M Rng pyobj :=
  match f with
  | Some f => f o
  | None => ret o
  end.

(** Lines 62-68: the two optional transforms, then the pair. *)
Definition transformed (self : t) (s : pyobj * pyobj)
    : M Rng (pyobj * pyobj) :=
  (img <- apply_transform (transform self) (fst s) ;;
   target <- apply_transform (target_transform self) (snd s) ;;
   ret (img, target))%py.

(** Lines 49-68: what [__getitem__] does once [self.txn] exists. *)
Definition fetch (index : Z) : M (t * World) (pyobj * pyobj) :=
  (self <- on_self get_state ;;
   match txn self with
   | None => raise AttributeError  (* [self.txn] does not exist *)
   | Some x =>
       key <- lift_result (py_getitem (keys self) index) ;;
       byteflow <- lift_result (lmdb.get x key) ;;
       s <- lift_result (decode byteflow) ;;
       on_world (with_rng (transformed self s))
   end)%py.

(** [__getitem__] (lines 44-68) *)
Definition __getitem__ (index : Z) : M (t * World) (pyobj * pyobj) :=
  (self <- on_self get_state ;;
   match txn self with
   | None => open_lmdb
   | Some _ => ret tt
   end ;;;
   fetch index)%py.

(** [__len__] (line 71) *)
Definition __len__ (self : t) : pyobj := length self.

(** Successive calls [self[i_1]; self[i_2]; ...], each outcome kept:
    a caller that catches the exception can go on using the object. *)
Fixpoint getitems (indices : list Z)
    : t * World -> list (result (pyobj * pyobj)) * (t * World) :=
  fun s =>
    match indices with
    | [] => ([], s)
    | i :: rest =>
        let '(r, s1) := __getitem__ i s in
        let '(rs, s2) := getitems rest s1 in
        (r :: rs, s2)
    end.

(** An archive holding the samples of the keys [ks], in this order: the
    two reserved entries unpickle to the count and to the key sequence,
    and every key is a key that LMDB can hold - not the empty byte
    string - and has a record that decodes. *)
Definition well_formed (A : gmap bytes bytes) (ks : list bytes) : Prop :=
  loads (A !! "__len__"%string) = Ok (PInt (Z.of_nat (List.length ks))) /\
  loads (A !! "__keys__"%string) = Ok (PList (map PBytes ks)) /\
  forall k, In k ks -> k <> ""%string /\ is_Ok (decode (A !! k)).

(** The object [h] is a handle on the archive [A] found at its path: its
    count and keys are those of [A], and so is the view of its transaction
    when it has one. *)
Definition serves (h : t) (w : World) (A : gmap bytes bytes)
    (ks : list bytes) : Prop :=
  fs w !! db_path h = Some A /\
  well_formed A ks /\
  length h = PInt (Z.of_nat (List.length ks)) /\
  keys h = PList (map PBytes ks) /\
  forall x, txn h = Some x -> lmdb.view x = A.

(** What a call with [index] gives on the archive [A] with keys [ks],
    from the random generator [g]: the key at the index, its record
    looked up and decoded, the transforms applied. *)
Definition sample_outcome (self : t) (A : gmap bytes bytes) (ks : list bytes)
    (index : Z) : M Rng (pyobj * pyobj) :=
  (k <- lift_result (seq_index ks index) ;;
   byteflow <- lift_result (lmdb.lookup A k) ;;
   s <- lift_result (decode byteflow) ;;
   transformed self s)%py.

(** The object that [open_lmdb] makes of [h] on a well-formed archive. *)
Definition opened (h : t) (w : World) (A : gmap bytes bytes)
    (ks : list bytes) : t :=
  mk (db_path h) (transform h) (target_transform h)
     (PInt (Z.of_nat (List.length ks))) (PList (map PBytes ks))
     (Some (new_env (db_path h) w)) (Some (new_txn (db_path h) w A)).

(** The handle [h] reads the archive [A], whose reserved entries hold the
    count object [l] and the keys [ks]: through its transaction when it
    has one (and then it holds [l] and [ks]), otherwise through the path
    it will open.  Nothing is asked of the records. *)
Definition reads_from (h : t) (w : World) (A : gmap bytes bytes) (l : pyobj)
    (ks : list bytes) : Prop :=
  match txn h with
  | Some x =>
      lmdb.view x = A /\ length h = l /\ keys h = PList (map PBytes ks)
  | None =>
      fs w !! db_path h = Some A /\
      loads (A !! "__len__"%string) = Ok l /\
      loads (A !! "__keys__"%string) = Ok (PList (map PBytes ks))
  end.

End Methods.

(** [__repr__] (lines 73-74): the class name and the path. *)
Definition __repr__ (self : t) : string :=
  ("ImageFolderLMDB" ++ (" (" ++ db_path self) ++ ")")%string.

(** A transform that returns on every input. *)
Definition never_raises (f : option callable) : Prop :=
  forall g o rng, f = Some g -> is_Ok (fst (g o rng)).

(** A transform that makes no use of the random generator. *)
Definition deterministic (f : option callable) : Prop :=
  forall g, f = Some g ->
    exists pure : pyobj -> result pyobj, forall o rng, g o rng = (pure o, rng).

End ImageFolderLMDB.


(** ** torchvision: the transforms and the image-folder dataset

    The stages that [main] composes are library code.  The flip is
    written out, since it is the stage whose use of the random generator
    is a single draw; the crop, the tensor conversion and the
    normalisation stay abstract. *)

Class Torchvision : Type := {
  RandomResizedCrop : Z -> callable;
  ToTensor : callable;
  Normalize : list Qc -> list Qc -> callable
}.

(** [F.hflip]: every row reversed. *)
Definition hflip (o : pyobj) : result pyobj :=
  match o with
  | PImage img => Ok (PImage (map (@rev pixel) img))
  | _ => Raise TypeError
  end.

(** [RandomHorizontalFlip(p)]: [if torch.rand(1) < p: return hflip(img)]. *)
Definition RandomHorizontalFlip (p : Qc) : callable :=
  fun img =>
    (u <- torch_rand ;;
     if Qclt_le_dec u p then lift_result (hflip img) else ret img)%py.

(** [transforms.Compose(ts)]: the stages applied in order. *)
Fixpoint Compose (ts : list callable) : callable :=
  fun img =>
    match ts with
    | [] => ret img
    | f :: rest => (x <- f img ;; Compose rest x)%py
    end.

Inductive Dataset : Type :=
  | LMDB (h : ImageFolderLMDB.t)
  | Folder (root : string) (transform : option callable).

(** [torchvision.datasets.ImageFolder(root, transform)] raises when the
    root directory is missing. *)
Definition ImageFolder (root : string) (transform : option callable)
    : M World Dataset :=
  fun w => if decide (root ∈ folders w)
           then (Ok (Folder root transform), w)
           else (Raise FileNotFoundError, w).

(** ** torch.utils.data.DataLoader

    Constructing and iterating the loader is library code that runs
    worker processes.  Of the construction (lines 113-115) the program
    sees that it returns or raises - it raises on a dataset that has
    nothing to sample from.  Of one pass [train] sees a sequence of
    arrivals: a batch, or the exception with which the loader ends the
    pass. *)

Class DataLoader : Type := {
  loader_init : Dataset -> result unit;
  arrivals : Dataset -> nat -> list (result batch)
}.

(** [DataLoader(train_dataset, batch_size=BATCH_SIZE, shuffle=True,
    num_workers=4, pin_memory=True)]: the loader is known by its
    dataset. *)
Definition new_loader {loader : DataLoader} (train_dataset : Dataset)
    : M World Dataset :=
  lift_result (and_then (loader_init train_dataset)
                 (fun _ => Ok train_dataset)).

(** [iter(train_loader)]: starts the next pass. *)
Definition iter_loader {loader : DataLoader} (ds : Dataset)
    : M World (list (result batch)) :=
  fun w => (Ok (arrivals ds (epoch w)), set_epoch (S (epoch w)) w).

(** ** torch: the model and its training step

    Both are library code.  Creating the model, its criterion and its
    optimizer (lines 78-87) returns or raises.  So does the work on one
    batch (lines 149-165: the forward pass, the loss with its accuracy,
    the three meters that record them, the backward pass and the
    optimizer step); how it ends depends on the batch and on what the
    model has been trained on before. *)

Class Torch : Type := {
  model_setup : result unit;
  training_step : list batch -> batch -> result unit
}.

(** ** numpy

    [np.mean] of a list of numbers: the float that numpy computes for
    their arithmetic mean.  The order in which numpy adds is its own
    matter, so the function stays abstract. *)

Class Numpy : Type := {
  np_mean : list pynum -> pynum
}.

(** ** The driver (main.py, lines 19-21, 76-182) *)

Definition DBS : list string := ["lmdb"; "imagefolder"]%string.
Definition BATCH_SIZE : Z := 128.

Module train.

(** The local variables of [train] that the timing depends on, and the
    world.  The meters for the loss and the two accuracies are locals
    that the training step writes and nothing reads. *)
Record frame : Type := {
  batch_time : AverageMeter.t;
  data_time : AverageMeter.t;
  end_ : spec_float;
  world : World
}.

Definition set_batch_time (m : AverageMeter.t) (f : frame) : frame :=
  {| batch_time := m; data_time := data_time f; end_ := end_ f;
     world := world f |}.
Definition set_data_time (m : AverageMeter.t) (f : frame) : frame :=
  {| batch_time := batch_time f; data_time := m; end_ := end_ f;
     world := world f |}.
Definition set_end (t : spec_float) (f : frame) : frame :=
  {| batch_time := batch_time f; data_time := data_time f; end_ := t;
     world := world f |}.
Definition set_world (w : World) (f : frame) : frame :=
  {| batch_time := batch_time f; data_time := data_time f; end_ := end_ f;
     world := w |}.

Definition now : M frame spec_float :=
  zoom world set_world (with_clock time_time).

(** Lines 149-165 on one batch: when the step returns, the model has
    been trained on one more batch. *)
Definition step {torch : Torch} (b : batch) : M World unit :=
  fun w => match training_step (trained w) b with
           | Ok _ => (Ok tt, set_trained (trained w ++ [b]) w)
           | Raise e => (Raise e, w)
           end.

(** The loop body (lines 145-169) for one batch that arrived.  The
    status line of lines 171-180 is printed only when [PRINT_STATUS],
    which is False. *)
Definition body {torch : Torch} (b : batch) : M frame unit :=
  (t <- now ;;
   f <- get_state ;;
   zoom data_time set_data_time
     (AverageMeter.update (PyFloat (float_sub t (end_ f))) 1) ;;;
   zoom world set_world (step b) ;;;
   t <- now ;;
   f <- get_state ;;
   zoom batch_time set_batch_time
     (AverageMeter.update (PyFloat (float_sub t (end_ f))) 1) ;;;
   t <- now ;;
   modify (set_end t))%py.

(** [for i, (input, target) in enumerate(train_loader)] *)
Fixpoint loop {torch : Torch} (items : list (result batch)) : M frame unit :=
  match items with
  | [] => ret tt
  | Ok b :: rest => (body b ;;; loop rest)%py
  | Raise e :: _ => raise e
  end.

(** [train(train_loader, ...)] (lines 133-182): returns
    [(batch_time, data_time)]. *)
Definition train {loader : DataLoader} {torch : Torch}
    (train_loader : Dataset) : M World (AverageMeter.t * AverageMeter.t) :=
  (t0 <- with_clock time_time ;;
   items <- iter_loader train_loader ;;
   fun w =>
     let '(r, f) := loop items {| batch_time := AverageMeter.new;
                                  data_time := AverageMeter.new;
                                  end_ := t0; world := w |} in
     (match r with
      | Ok _ => Ok (batch_time f, data_time f)
      | Raise e => Raise e
      end, world f))%py.

End train.

(** A number that a timing meter can hold in [sum]: the int 0 of a
    meter that was never updated, or a float. *)
Definition timing (x : pynum) : Prop :=
  x = PyInt 0 \/ exists f, x = PyFloat f.

(** The training steps on the batches [bs], one after the other, all
    return, from a model trained on [hist]. *)
Fixpoint steps_return {torch : Torch} (hist : list batch) (bs : list batch)
    : Prop :=
  match bs with
  | [] => True
  | b :: rest =>
      training_step hist b = Ok tt /\ steps_return (hist ++ [b]) rest
  end.

(** The world that a pass of [train] leaves behind when it began in
    [w], has trained on the batches [done] and has read the clock
    [reads] times: one more pass started, the clock advanced, the model
    trained further, and nothing else touched. *)
Definition pass_world (w : World) (done : list batch) (reads : nat) : World :=
  set_trained (trained w ++ done)
    (set_epoch (S (epoch w))
       (set_clock {| readings := readings (clock w);
                     ticks := ticks (clock w) + reads |} w)).

(** The frame of [train] after the batches [done] of a pass that began
    in the world [w0] (the loader started, the clock read once, at tick
    [n0]): three more clock readings per batch, [end] the latest of
    them, the model trained on these batches, and one entry per batch in
    both meters. *)
Definition after_batches (w0 : World) (n0 : nat) (done : list batch)
    (f : train.frame) : Prop :=
  let r := readings (clock w0) in
  let j := length done in
  train.world f
  = set_trained (trained w0 ++ done)
      (set_clock {| readings := r; ticks := n0 + 1 + 3 * j |} w0) /\
  train.end_ f = r (n0 + 3 * j)%nat /\
  AverageMeter.count (train.batch_time f) = Z.of_nat j /\
  AverageMeter.count (train.data_time f) = Z.of_nat j /\
  length (AverageMeter.avg_values (train.batch_time f)) = j /\
  length (AverageMeter.avg_values (train.data_time f)) = j /\
  timing (AverageMeter.sum (train.batch_time f)) /\
  timing (AverageMeter.sum (train.data_time f)).

Module main.

(** The four accumulators of lines 117-118. *)
Record acc : Type := {
  batch_time_avg : list pynum;
  data_time_avg : list pynum;
  batch_time_sum : pynum;
  data_time_sum : pynum
}.

Definition acc0 : acc :=
  {| batch_time_avg := []; data_time_avg := [];
     batch_time_sum := PyInt 0; data_time_sum := PyInt 0 |}.

(** Lines 122-125: two appends, two additions. *)
Definition record_pass (a : acc) (batch_time data_time : AverageMeter.t)
    : result acc :=
  and_then (py_add (batch_time_sum a) (AverageMeter.sum batch_time))
    (fun batch_sum =>
  and_then (py_add (data_time_sum a) (AverageMeter.sum data_time))
    (fun data_sum =>
  Ok {| batch_time_avg := batch_time_avg a ++ [AverageMeter.avg batch_time];
        data_time_avg := data_time_avg a ++ [AverageMeter.avg data_time];
        batch_time_sum := batch_sum;
        data_time_sum := data_sum |})).

Section Driver.
Context {codec : Codec} {torchvision : Torchvision} {loader : DataLoader}
  {torch : Torch} {numpy : Numpy}.

(** The transform that both datasets are given (lines 97-102, 106-111). *)
Definition configured_transform : callable :=
  Compose [RandomResizedCrop 64;
           RandomHorizontalFlip (Q2Qc (1 # 2));
           ToTensor;
           Normalize (map Q2Qc [485 # 1000; 456 # 1000; 406 # 1000])
                     (map Q2Qc [229 # 1000; 224 # 1000; 225 # 1000])].

(** Lines 94-111 *)
Definition make_dataset (imagefolder_data_dir lmdb_data_db : string)
    (dataset_type : string) : M World Dataset :=
  if String.eqb dataset_type "lmdb" then
    (h <- ImageFolderLMDB.__init__ lmdb_data_db
            (Some configured_transform) None ;;
     ret (LMDB h))%py
  else ImageFolder imagefolder_data_dir (Some configured_transform).

(** [for _ in range(n)]: lines 120-125 *)
Fixpoint passes (n : nat) (train_loader : Dataset) (a : acc) : M World acc :=
  match n with
  | O => ret a
  | S n' =>
      (r <- train.train train_loader ;;
       a' <- lift_result (record_pass a (fst r) (snd r)) ;;
       passes n' train_loader a')%py
  end.

(** Lines 127-131 *)
Definition print_summary (dataset_type : string) (a : acc) : M World unit :=
  (print (Timings_for dataset_type) ;;;
   print (Avg_data_time (np_mean (data_time_avg a))) ;;;
   print (Avg_batch_time (np_mean (batch_time_avg a))) ;;;
   print (Total_data_time (data_time_sum a)) ;;;
   print (Total_batch_time (batch_time_sum a)))%py.

(** The body of [for dataset_type in DBS] (lines 94-131). *)
Definition backend (imagefolder_data_dir lmdb_data_db : string)
    (dataset_type : string) : M World unit :=
  (train_dataset <- make_dataset imagefolder_data_dir lmdb_data_db
                      dataset_type ;;
   train_loader <- new_loader train_dataset ;;
   a <- passes 10 train_loader acc0 ;;
   print_summary dataset_type a)%py.

Fixpoint for_each (l : list string) (body : string -> M World unit)
    : M World unit :=
  match l with
  | [] => ret tt
  | x :: rest => (body x ;;; for_each rest body)%py
  end.

(** Lines 78-91: the model, its criterion and its optimizer; the model is
    new, trained on nothing. *)
Definition create_model : M World unit :=
  (lift_result model_setup ;;;
   modify (set_trained []))%py.

(** [main(imagefolder_data_dir, lmdb_data_db)] (lines 76-131) *)
Definition main (imagefolder_data_dir lmdb_data_db : string) : M World unit :=
  (create_model ;;;
   for_each DBS (backend imagefolder_data_dir lmdb_data_db))%py.

End Driver.

(** The outcomes of successive calls of [train] on one loader, each from
    the world the previous one left. *)
Inductive train_runs {loader : DataLoader} {torch : Torch}
    (train_loader : Dataset)
    : World -> list (AverageMeter.t * AverageMeter.t) -> World -> Prop :=
  | runs_nil w : train_runs train_loader w [] w
  | runs_cons w r w1 rs w2 :
      train.train train_loader w = (Ok r, w1) ->
      train_runs train_loader w1 rs w2 ->
      train_runs train_loader w (r :: rs) w2.

(** [(...((s + x_1) + x_2) + ...) + x_k] in Python's arithmetic. *)
Fixpoint total_from (s : pynum) (l : list pynum) : result pynum :=
  match l with
  | [] => Ok s
  | x :: rest => and_then (py_add s x) (fun s' => total_from s' rest)
  end.

(** The sum of a list of numbers, added up from 0 in the order of the
    list. *)
Definition total (l : list pynum) : result pynum := total_from (PyInt 0) l.

(** The five lines that summarise the passes [runs] of a backend, given
    the two totals; a run is the pair [(batch_time, data_time)] that
    [train] returned. *)
Definition summary_lines {numpy : Numpy} (dataset_type : string)
    (runs : list (AverageMeter.t * AverageMeter.t))
    (total_data total_batch : pynum) : list line :=
  [ Timings_for dataset_type;
    Avg_data_time (np_mean (map (fun r => AverageMeter.avg (snd r)) runs));
    Avg_batch_time (np_mean (map (fun r => AverageMeter.avg (fst r)) runs));
    Total_data_time total_data;
    Total_batch_time total_batch ].

(** The passes [runs] have the totals [total_data] and [total_batch]:
    the sums of their data-time sums and of their batch-time sums. *)
Definition totals (runs : list (AverageMeter.t * AverageMeter.t))
    (total_data total_batch : pynum) : Prop :=
  total (map (fun r => AverageMeter.sum (snd r)) runs) = Ok total_data /\
  total (map (fun r => AverageMeter.sum (fst r)) runs) = Ok total_batch.

End main.

(** Pass number [e] over [ds], of a model trained on [hist], is one in
    which nothing fails: every arrival is a batch, the batches are [bs],
    fewer than 2^53 (so that their count is a float), and the training
    step returns on each, one after the other. *)
Definition pass_succeeds {loader : DataLoader} {torch : Torch}
    (ds : Dataset) (e : nat) (hist : list batch) (bs : list batch) : Prop :=
  arrivals ds e = map Ok bs /\
  Z.of_nat (length bs) < 2 ^ 53 /\
  steps_return hist bs.

(** [n] passes in a row from pass [e], none failing; [bss] are their
    batches. *)
Fixpoint passes_succeed {loader : DataLoader} {torch : Torch}
    (ds : Dataset) (e : nat) (hist : list batch) (bss : list (list batch))
    : Prop :=
  match bss with
  | [] => True
  | bs :: rest =>
      pass_succeeds ds e hist bs /\
      passes_succeed ds (S e) (hist ++ bs) rest
  end.

(** ** save_checkpoint (main.py, lines 184-187) *)

Module checkpoint.

Section Files.
(** What a checkpoint file holds is the state that was saved to it.  A
    path names a file: [resolve] gives the file that opening the path
    reads or writes, so that two spellings of one path, or two links to
    one file, resolve to the same file.  Opening a path for writing can
    fail - no such directory, no permission -, and [cannot_write] gives
    the exception it then raises. *)
Variable State : Type.
Variable File : Type.
Context `{Countable File}.
Variable resolve : string -> File.
Variable cannot_write : string -> option exn.




End Files.

End checkpoint.

(** ** The batching of a pass *)

Module BatchingPipeline.

(** Modelled from the spec: the batching pipeline is torch's DataLoader,
    which is not part of the sources; [main] only constructs it (lines
    113-115, [batch_size=BATCH_SIZE], [shuffle=True]).  Following the spec
    (4.2), the indices of a pass are taken in the order the sampler gives
    them and cut into groups of [batch_size]; the group that is still
    being filled when the indices run out is delivered as the final,
    smaller batch. *)
Fixpoint for_each_pass (batch_size : nat) (batch : list nat)
    (sampler : list nat) : list (list nat) :=
  match sampler with
  | [] => match batch with [] => [] | _ => [batch] end
  | idx :: rest =>
      let batch' := batch ++ [idx] in
      if (length batch' =? batch_size)%nat
      then batch' :: for_each_pass batch_size [] rest
      else for_each_pass batch_size batch' rest
  end.

(** Without shuffling the sampler gives [0, ..., L-1]; with shuffling it
    gives some rearrangement of them. *)
Definition sampler_order (L : nat) (order : list nat) : Prop :=
  Permutation order (seq 0 L).

End BatchingPipeline.

(** ** A small concrete installation

    A two-sample archive with a toy pickle and image format, used to run
    the definitions on concrete inputs. *)

Module Scenario.

Definition toy_pickle_loads (b : bytes) : result pyobj :=
  if String.eqb b "two" then Ok (PInt 2)
  else if String.eqb b "keys01" then Ok (PList [PBytes "0"; PBytes "1"])
  else if String.eqb b "one" then Ok (PInt 1)
  else if String.eqb b "keys1" then Ok (PList [PBytes "1"])
  else if String.eqb b "rec0"
       then Ok (PTuple [PTuple [PBytes "img0"]; PInt 7])
  else if String.eqb b "rec1"
       then Ok (PTuple [PTuple [PBytes "img1"]; PInt 9])
  else if String.eqb b "zero" then Ok (PInt 0)
  else if String.eqb b "nokeys" then Ok (PList [])
  else Raise UnpicklingError.

Definition toy_Image_open (b : bytes) : result image :=
  if String.eqb b "img0" then Ok [[(10, 10, 10); (20, 20, 20)]]
  else if String.eqb b "img1" then Ok [[(30, 30, 30); (40, 40, 40)]]
  else Raise UnidentifiedImageError.

Definition toy_codec : Codec :=
  {| pickle_loads := toy_pickle_loads; Image_open := toy_Image_open |}.

(** Stand-ins for the abstract stages that leave the image as it is. *)
Definition plain_stages : Torchvision :=
  {| RandomResizedCrop := fun _ img => ret img;
     ToTensor := fun img => ret img;
     Normalize := fun _ _ img => ret img |}.

(** The two samples of the archive, as the stages above leave them. *)
Definition sample0 : pyobj * pyobj :=
  (PImage [[(10, 10, 10); (20, 20, 20)]], PInt 7).
Definition sample1 : pyobj * pyobj :=
  (PImage [[(30, 30, 30); (40, 40, 40)]], PInt 9).

(** A loader is constructed on a dataset that has something to sample
    from. *)
Definition nonempty (ds : Dataset) : result unit :=
  match ds with
  | LMDB h =>
      match ImageFolderLMDB.__len__ h with
      | PInt n => if n <=? 0 then Raise ValueError else Ok tt
      | _ => Raise TypeError
      end
  | Folder _ _ => Ok tt
  end.

(** What the batches of 128 are on the two datasets: the archive of two
    samples gives one batch, a folder of 130 images gives two. *)
Definition batches_of (ds : Dataset) : list batch :=
  match ds with
  | LMDB _ => [[sample0; sample1]]
  | Folder _ _ => [repeat sample0 128; [sample0; sample1]]
  end.

(** A loader in whose passes every batch arrives. *)
Definition every_batch : DataLoader :=
  {| loader_init := nonempty;
     arrivals := fun ds _ => map Ok (batches_of ds) |}.

(** A model that is created and whose training step returns on every
    batch of two samples or more; on a single sample the criterion
    raises. *)
Definition plain_training : Torch :=
  {| model_setup := Ok tt;
     training_step := fun _ b =>
       if (length b =? 1)%nat then Raise ValueError else Ok tt |}.

(** A mean that adds from left to right and divides by the length. *)
Definition sequential_mean : Numpy :=
  {| np_mean := fun l =>
       match and_then (main.total l)
               (fun s => py_truediv s (PyInt (Z.of_nat (length l)))) with
       | Ok q => q
       | Raise _ => PyFloat S754_nan
       end |}.

(** The float of [n] seconds. *)
Definition seconds (n : nat) : spec_float :=
  binary_normalize 53 1024 (Z.of_nat n) 0 false.

Definition archive : gmap string string :=
  {[ "__len__" := "two"; "__keys__" := "keys01";
     "0" := "rec0"; "1" := "rec1" ]}%string.

(** The same records under a shorter index. *)
Definition archive_reindexed : gmap string string :=
  {[ "__len__" := "one"; "__keys__" := "keys1";
     "0" := "rec0"; "1" := "rec1" ]}%string.

(** Records without the two reserved entries. *)
Definition archive_without_index : gmap string string :=
  {[ "0" := "rec0"; "1" := "rec1" ]}%string.

Definition db : string := "/data/train.lmdb".
Definition dir : string := "/data/train".

(** Draws below one half at even positions, above it at odd ones. *)
Definition alternating (n : nat) : Qc :=
  if Nat.even n then Q2Qc (1 # 4) else Q2Qc (3 # 4).

Definition world_with (A : option (gmap string string)) : World :=
  {| fs := match A with Some A => {[ db := A ]} | None => ∅ end;
     folders := {[ dir ]};
     conns := 0;
     rng := {| draws := alternating; cursor := 0 |};
     clock := {| readings := seconds; ticks := 0 |};
     epoch := 0;
     trained := [];
     stdout := [] |}.

Definition world : World := world_with (Some archive).

(** The archive in place, the image folder missing. *)
Definition world_without_folder : World :=
  {| fs := fs world; folders := ∅; conns := 0; rng := rng world;
     clock := clock world; epoch := 0; trained := []; stdout := [] |}.

(** The object that [__init__] returns for [db] in [world], without
    transforms, and the world it leaves. *)
Definition handle : ImageFolderLMDB.t :=
  ImageFolderLMDB.mk db None None
    (PInt 2) (PList [PBytes "0"; PBytes "1"]) None None.

Definition world_after_init : World := set_conns 1 world.

(** The handle that [main] constructs: the configured transform, no target
    transform. *)
Definition configured_handle : ImageFolderLMDB.t :=
  ImageFolderLMDB.mk db (Some (main.configured_transform (torchvision := plain_stages)))
     None (PInt 2) (PList [PBytes "0"; PBytes "1"]) None None.

(** The world after [__init__], with the archive at [db] replaced. *)
Definition world_reindexed : World :=
  set_conns 1 (world_with (Some archive_reindexed)).

(** A loader whose fourth pass ends with an exception in place of the
    last batch. *)
Definition failing_in_fourth_pass : DataLoader :=
  {| loader_init := nonempty;
     arrivals := fun ds e =>
       if (e =? 3)%nat
       then map Ok (removelast (batches_of ds))
            ++ [Raise UnidentifiedImageError]
       else map Ok (batches_of ds) |}.

(** An archive with an index and no sample. *)
Definition archive_empty : gmap string string :=
  {[ "__len__" := "zero"; "__keys__" := "nokeys" ]}%string.

(** The handle that [main] constructs on the empty archive. *)
Definition empty_handle : ImageFolderLMDB.t :=
  ImageFolderLMDB.mk db (Some (main.configured_transform (torchvision := plain_stages)))
     None (PInt 0) (PList []) None None.



(** One tenth, as a float: 0.1 *)
Definition tenth : spec_float := S754_finite false 7205759403792794 (-56).

(** The index of two keys with the record of the second one missing. *)
Definition archive_missing_record : gmap string string :=
  {[ "__len__" := "two"; "__keys__" := "keys01"; "0" := "rec0" ]}%string.

End Scenario.


(** * Properties *)

(** ** Running computations *)

Lemma bind_Ok {S A B} (m : M S A) (k : A -> M S B) s a s' :
  m s = (Ok a, s') -> bind m k s = k a s'.
Proof. intros E. unfold bind. now rewrite E. Qed.

Lemma bind_Raise {S A B} (m : M S A) (k : A -> M S B) s e s' :
  m s = (Raise e, s') -> bind m k s = (Raise e, s').
Proof. intros E. unfold bind. now rewrite E. Qed.

(** ** Ints among the floats *)

Lemma digits2_pos_size p : digits2_pos p = Pos.size p.
Proof. induction p; simpl; congruence. Qed.

Lemma digits2_pos_iter p k :
  digits2_pos (Pos.iter xO p k) = (digits2_pos p + k)%positive.
Proof.
  induction k using Pos.peano_ind.
  - simpl. lia.
  - rewrite Pos.iter_succ. simpl. rewrite IHk. lia.
Qed.

(** A positive number below [2 ^ n] has at most [n] binary digits. *)
Lemma digits2_pos_le p n :
  0 <= n -> Zpos p < 2 ^ n -> Zpos (digits2_pos p) <= n.
Proof.
  intros Hn Hp. rewrite digits2_pos_size.
  pose proof (Pos.size_le p) as Hs.
  destruct (Z.le_gt_cases (Zpos (Pos.size p)) n) as [|Hgt]; [assumption|].
  exfalso.
  assert (H2 : 2 ^ (n + 1) <= 2 ^ Zpos (Pos.size p))
    by (apply Z.pow_le_mono_r; lia).
  rewrite Z.pow_add_r in H2 by lia.
  assert (Hz : 2 ^ Zpos (Pos.size p) <= Zpos p~0).
  { rewrite <- Pos2Z.inj_pow. apply Pos2Z.pos_le_pos. exact Hs. }
  lia.
Qed.

(** A mantissa of 53 digits with an exponent in range is a float as it
    stands: rounding leaves it alone. *)
Lemma binary_round_aux_canonical s m e :
  Zpos (digits2_pos m) = 53 -> -1074 <= e <= 971 ->
  binary_round_aux 53 1024 s (Zpos m) e loc_Exact = S754_finite s m e.
Proof.
  intros Hd He. unfold binary_round_aux, shr_fexp, fexp, emin.
  cbn [Zdigits2 shr_record_of_loc]. rewrite Hd.
  replace (Z.max (53 + e - 53) (3 - 1024 - 53) - e) with 0 by lia.
  cbn [shr shr_m loc_of_shr_record round_nearest_even Zdigits2
       shr_record_of_loc].
  rewrite Hd.
  replace (Z.max (53 + e - 53) (3 - 1024 - 53) - e) with 0 by lia.
  cbn [shr shr_m].
  destruct (Z.leb_spec e (1024 - 53)); [reflexivity | lia].
Qed.

Lemma binary_round_small s p :
  Zpos p < 2 ^ 53 ->
  exists m e, binary_round 53 1024 s p 0 = S754_finite s m e.
Proof.
  intros Hp. pose proof (digits2_pos_le p 53 ltac:(lia) Hp) as Hd.
  unfold binary_round, shl_align, fexp, emin.
  replace (Z.max (Zpos (digits2_pos p) + 0 - 53) (3 - 1024 - 53) - 0)
    with (Zpos (digits2_pos p) - 53) by lia.
  destruct (Zpos (digits2_pos p) - 53) as [|k|k] eqn:Ek; [| lia |].
  - eexists _, _. apply binary_round_aux_canonical; lia.
  - eexists _, _. apply binary_round_aux_canonical.
    + rewrite digits2_pos_iter. lia.
    + lia.
Qed.

(** An int from 0 to below [2 ^ 53] converts to a float. *)
Lemma float_of_int_small z :
  0 <= z < 2 ^ 53 -> exists f, float_of_int z = Ok f.
Proof.
  intros [H0 H1]. destruct z as [|p|p]; [| | lia].
  - now exists (S754_zero false).
  - destruct (binary_round_small false p H1) as (m & e & E).
    exists (S754_finite false m e). unfold float_of_int. simpl.
    now rewrite E.
Qed.

Lemma shr_1_m mrs : 0 <= shr_m mrs -> shr_m (shr_1 mrs) = shr_m mrs / 2.
Proof.
  destruct mrs as [m r s]. cbn [shr_m]. intros Hm.
  destruct m as [|[p|p|]|p]; cbn [shr_1 shr_m].
  - reflexivity.
  - apply Z.div_unique with (r := 1); lia.
  - apply Z.div_unique with (r := 0); lia.
  - reflexivity.
  - lia.
Qed.

(** Shifting a mantissa right by [k] digits divides it by [2 ^ k]. *)
Lemma iter_pos_shr_m k : forall mrs,
  0 <= shr_m mrs ->
  shr_m (SpecFloat.iter_pos shr_1 k mrs) = shr_m mrs / 2 ^ Zpos k.
Proof.
  assert (Hnn : forall mrs, 0 <= shr_m mrs -> 0 <= shr_m (shr_1 mrs)).
  { intros mrs H. rewrite shr_1_m by exact H. apply Z.div_pos; lia. }
  induction k as [k IH|k IH|]; intros mrs Hm; cbn [SpecFloat.iter_pos].
  - rewrite IH, IH, shr_1_m by (rewrite ?IH; auto; apply Z.div_pos; auto; lia).
    rewrite !Z.div_div by lia. f_equal.
    replace (Zpos k~1) with (1 + Zpos k + Zpos k) by lia.
    rewrite !Z.pow_add_r by lia. change (2 ^ 1) with 2. ring.
  - rewrite IH, IH by (rewrite ?IH; auto; apply Z.div_pos; auto; lia).
    rewrite !Z.div_div by lia. f_equal.
    replace (Zpos k~0) with (Zpos k + Zpos k) by lia.
    rewrite !Z.pow_add_r by lia. ring.
  - now rewrite shr_1_m.
Qed.

Lemma size_bounds p :
  2 ^ (Zpos (Pos.size p) - 1) <= Zpos p < 2 ^ Zpos (Pos.size p).
Proof.
  split.
  - pose proof (Pos.size_le p) as Hs.
    assert (Hz : 2 ^ Zpos (Pos.size p) <= Zpos p~0).
    { rewrite <- Pos2Z.inj_pow. apply Pos2Z.pos_le_pos. exact Hs. }
    replace (Zpos (Pos.size p)) with (Zpos (Pos.size p) - 1 + 1) in Hz by lia.
    rewrite Z.pow_add_r in Hz by lia. lia.
  - pose proof (Pos.size_gt p) as Hs.
    rewrite <- Pos2Z.inj_pow. apply Pos2Z.pos_lt_pos. exact Hs.
Qed.

Lemma round_nearest_even_bounds m l :
  m <= round_nearest_even m l <= m + 1.
Proof.
  destruct l as [|[]]; simpl; try lia. destruct (Z.even m); lia.
Qed.

(** Rounding an int of more than 53 digits never gives zero: what it
    gives has the 53 leading digits, or is infinite. *)
Lemma binary_round_aux_large s m :
  2 ^ 53 <= Zpos m ->
  nonzero_number (binary_round_aux 53 1024 s (Zpos m) 0 loc_Exact).
Proof.
  intros Hm. unfold nonzero_number.
  pose proof (size_bounds m) as [Hlo Hhi].
  set (d := Zpos (Pos.size m)) in *.
  assert (Hd : 54 <= d).
  { destruct (Z.le_gt_cases 54 d); [assumption|]. exfalso.
    assert (2 ^ d <= 2 ^ 53) by (apply Z.pow_le_mono_r; lia). lia. }
  unfold binary_round_aux, shr_fexp, fexp, emin.
  cbn [Zdigits2 shr_record_of_loc]. rewrite digits2_pos_size. fold d.
  replace (Z.max (d + 0 - 53) (3 - 1024 - 53) - 0) with (d - 53) by lia.
  destruct (d - 53) as [|k|k] eqn:Ek; [lia | | lia].
  cbn [shr].
  set (mrs1 := SpecFloat.iter_pos shr_1 k _).
  assert (H1 : shr_m mrs1 = Zpos m / 2 ^ Zpos k)
    by (unfold mrs1; now rewrite iter_pos_shr_m by (simpl; lia)).
  assert (Hk : 0 < 2 ^ Zpos k) by (apply Z.pow_pos_nonneg; lia).
  assert (Hlo1 : 2 ^ 52 <= shr_m mrs1).
  { rewrite H1. apply Z.div_le_lower_bound; [lia|].
    rewrite <- Z.pow_add_r by lia.
    now replace (Zpos k + 52) with (d - 1) by lia. }
  assert (Hhi1 : shr_m mrs1 < 2 ^ 53).
  { rewrite H1. apply Z.div_lt_upper_bound; [lia|].
    rewrite <- Z.pow_add_r by lia.
    now replace (Zpos k + 53) with d by lia. }
  pose proof (round_nearest_even_bounds (shr_m mrs1) (loc_of_shr_record mrs1))
    as [Hr1 Hr2].
  set (m2 := round_nearest_even _ _) in *.
  destruct m2 as [|p2|p2] eqn:E2; [lia| |lia].
  cbn [Zdigits2 shr_record_of_loc].
  pose proof (size_bounds p2) as [Hlo2 Hhi2].
  rewrite digits2_pos_size.
  set (d2 := Zpos (Pos.size p2)) in *.
  assert (Hd2 : 53 <= d2 <= 54).
  { split.
    - destruct (Z.le_gt_cases 53 d2); [assumption|]. exfalso.
      assert (2 ^ d2 <= 2 ^ 52) by (apply Z.pow_le_mono_r; lia). lia.
    - destruct (Z.le_gt_cases d2 54); [assumption|]. exfalso.
      assert (2 ^ 54 <= 2 ^ (d2 - 1)) by (apply Z.pow_le_mono_r; lia). lia. }
  replace (Z.max (d2 + (0 + Zpos k) - 53) (3 - 1024 - 53) - (0 + Zpos k))
    with (d2 - 53) by lia.
  destruct (d2 - 53) as [|j|j] eqn:Ej; [| |lia].
  - cbn [shr shr_m]. now destruct (_ <=? _).
  - assert (j = 1%positive) by lia. subst j.
    cbn [shr SpecFloat.iter_pos].
    pose proof (shr_1_m {| shr_m := Zpos p2; shr_r := false; shr_s := false |}
                  ltac:(simpl; lia)) as Hs.
    cbn [shr_m] in Hs.
    assert (Hpos : 0 < Zpos p2 / 2) by (apply Z.div_str_pos; lia).
    destruct (shr_m (shr_1 _)) as [|q|q] eqn:Eq; [lia | | lia].
    now destruct (_ <=? _).
Qed.

Lemma binary_round_nonzero s p : nonzero_number (binary_round 53 1024 s p 0).
Proof.
  destruct (Z.lt_ge_cases (Zpos p) (2 ^ 53)) as [Hs|Hl].
  - destruct (binary_round_small s p Hs) as (m & e & ->). exact I.
  - pose proof (size_bounds p) as [_ Hhi].
    assert (Hd : 54 <= Zpos (Pos.size p)).
    { destruct (Z.le_gt_cases 54 (Zpos (Pos.size p))); [assumption|]. exfalso.
      assert (2 ^ Zpos (Pos.size p) <= 2 ^ 53)
        by (apply Z.pow_le_mono_r; lia). lia. }
    unfold binary_round, shl_align, fexp, emin. rewrite digits2_pos_size.
    replace (Z.max (Zpos (Pos.size p) + 0 - 53) (3 - 1024 - 53) - 0)
      with (Zpos (Pos.size p) - 53) by lia.
    destruct (Zpos (Pos.size p) - 53) as [|k|k] eqn:Ek; [lia | | lia].
    now apply binary_round_aux_large.
Qed.

(** The float of an int that is not zero is not zero. *)
Lemma float_of_int_nonzero z f :
  z <> 0 -> float_of_int z = Ok f -> is_zero f = false.
Proof.
  intros Hz. unfold float_of_int, binary_normalize.
  destruct z as [|p|p]; [contradiction| |].
  - pose proof (binary_round_nonzero false p) as H.
    destruct (binary_round 53 1024 false p 0); simpl in *;
      try contradiction; try discriminate; now intros [= <-].
  - pose proof (binary_round_nonzero true p) as H.
    destruct (binary_round 53 1024 true p 0); simpl in *;
      try contradiction; try discriminate; now intros [= <-].
Qed.

(** ** Python's arithmetic *)

Lemma to_float_raises x e : to_float x = Raise e -> e = OverflowError.
Proof.
  destruct x as [z|f]; [|discriminate].
  unfold to_float, float_of_int, finite_or_overflow.
  destruct (binary_normalize 53 1024 z 0 false); congruence.
Qed.

Lemma float_op_raises op a b e :
  float_op op a b = Raise e -> e = OverflowError.
Proof.
  unfold float_op.
  destruct (to_float a) eqn:Ea; simpl; [|intros [= <-]; eauto using to_float_raises].
  destruct (to_float b) eqn:Eb; simpl; [discriminate|].
  intros [= <-]. eauto using to_float_raises.
Qed.

(** Sums and products raise nothing but OverflowError. *)
Lemma py_add_raises a b e : py_add a b = Raise e -> e = OverflowError.
Proof.
  destruct a, b; simpl; try discriminate; apply float_op_raises.
Qed.

Lemma py_mul_raises a b e : py_mul a b = Raise e -> e = OverflowError.
Proof.
  destruct a, b; simpl; try discriminate; apply float_op_raises.
Qed.

(** What is added to a float, or a float to, is a float. *)
Lemma py_add_float_r a f s : py_add a (PyFloat f) = Ok s -> exists g, s = PyFloat g.
Proof.
  destruct a as [z|x]; simpl; unfold float_op; simpl.
  - destruct (float_of_int z); simpl; [|discriminate]. intros [= <-]. eauto.
  - intros [= <-]. eauto.
Qed.

Lemma py_add_timing a b :
  timing a -> timing b -> exists s, py_add a b = Ok s /\ timing s.
Proof.
  intros [->|[f ->]] [->|[g ->]].
  - exists (PyInt 0). split; [reflexivity | now left].
  - eexists. split; [reflexivity | right; eauto].
  - eexists. split; [reflexivity | right; eauto].
  - eexists. split; [reflexivity | right; eauto].
Qed.

(** A division by the int 0 raises ZeroDivisionError, whatever is
    divided. *)
Lemma py_truediv_zero a : py_truediv a (PyInt 0) = Raise ZeroDivisionError.
Proof. now destruct a. Qed.

(** A division by an int that is not zero raises nothing but
    OverflowError. *)
Lemma py_truediv_raises a c e :
  c <> 0 -> py_truediv a (PyInt c) = Raise e -> e = OverflowError.
Proof.
  intros Hc. destruct a as [z|x]; simpl.
  - destruct (Z.eqb_spec c 0) as [|_]; [contradiction|].
    unfold finite_or_overflow.
    destruct (float_div (int_operand z) (int_operand c)); simpl; congruence.
  - destruct (float_of_int c) as [y|e'] eqn:Ey; simpl.
    + now rewrite (float_of_int_nonzero c y Hc Ey).
    + intros [= <-]. now apply (to_float_raises (PyInt c)).
Qed.

(** A float divided by an int from 1 to below [2 ^ 53] is a float. *)
Lemma py_truediv_float x c :
  1 <= c < 2 ^ 53 -> exists q, py_truediv (PyFloat x) (PyInt c) = Ok (PyFloat q).
Proof.
  intros Hc. destruct (float_of_int_small c ltac:(lia)) as (y & Ey).
  simpl. rewrite Ey. simpl.
  rewrite (float_of_int_nonzero c y ltac:(lia) Ey). eauto.
Qed.

(** A float times an int from 0 to below [2 ^ 53] is a float. *)
Lemma py_mul_float x n :
  0 <= n < 2 ^ 53 -> exists p, py_mul (PyFloat x) (PyInt n) = Ok (PyFloat p).
Proof.
  intros Hn. destruct (float_of_int_small n Hn) as (y & Ey).
  simpl. unfold float_op. simpl. rewrite Ey. simpl. eauto.
Qed.

(** ** AverageMeter *)

Section AverageMeterFacts.
Import AverageMeter.

(** [update], outcome by outcome: an exception in the product or in the
    sum leaves only [val] assigned; one in the division leaves [val],
    [sum] and [count] assigned. *)
Lemma update_unfold v n m :
  update v n m =
    match py_mul v (PyInt n) with
    | Raise e => (Raise e, set_val v m)
    | Ok p =>
        match py_add (sum m) p with
        | Raise e => (Raise e, set_val v m)
        | Ok s =>
            match py_truediv s (PyInt (count m + n)) with
            | Raise e =>
                (Raise e,
                 {| val := v; avg := avg m; sum := s; count := count m + n;
                    avg_values := avg_values m |})
            | Ok q =>
                (Ok tt,
                 {| val := v; avg := q; sum := s; count := count m + n;
                    avg_values := avg_values m ++ [q] |})
            end
        end
    end.
Proof.
  unfold update, bind, modify, get_state, lift_result. simpl.
  destruct (py_mul v (PyInt n)) as [p|e]; [|reflexivity].
  destruct (py_add (sum m) p) as [s|e]; [|reflexivity]. simpl.
  destruct (py_truediv s (PyInt (count m + n))); reflexivity.
Qed.

Lemma last_cons_default {A} (x : A) (l : list A) (d d' : A) :
  List.last (x :: l) d = List.last (x :: l) d'.
Proof.
  revert x. induction l as [|y l IH]; intros x; [reflexivity|].
  change (List.last (y :: l) d = List.last (y :: l) d'). apply IH.
Qed.


(** A sequence of updates with weights of 1 or more, from any meter
    whose count is not negative: how it can end, and what it leaves when
    it returns. *)
Lemma updates_inv calls : forall m r m',
  0 <= count m ->
  Forall (fun c : pynum * Z => 1 <= snd c) calls ->
  updates calls m = (r, m') ->
  (r = Ok tt \/ r = Raise OverflowError) /\
  (r = Ok tt ->
     val m' = List.last (map fst calls) (val m) /\
     accumulate (sum m) calls = Ok (sum m') /\
     count m' = count m + total_weight calls /\
     (calls <> [] -> py_truediv (sum m') (PyInt (count m')) = Ok (avg m')) /\
     exists hist,
       avg_values m' = avg_values m ++ hist /\
       map Ok hist
       = map (running_from (sum m) (count m) calls) (seq 0 (length calls))).
Proof.
  induction calls as [|[v n] rest IH]; intros m r m' Hm Hall E.
  - simpl in E. unfold ret in E. injection E as <- <-.
    split; [now left|]. intros _. simpl.
    repeat split; [lia | easy |].
    exists []. now rewrite app_nil_r.
  - apply Forall_cons_iff in Hall as [Hn Hrest]. simpl in Hn.
    simpl updates in E. unfold bind in E. rewrite update_unfold in E.
    destruct (py_mul v (PyInt n)) as [p|e] eqn:Ep.
    2:{ injection E as <- <-. apply py_mul_raises in Ep. subst e.
        split; [now right | discriminate]. }
    destruct (py_add (sum m) p) as [s|e] eqn:Es.
    2:{ injection E as <- <-. apply py_add_raises in Es. subst e.
        split; [now right | discriminate]. }
    destruct (py_truediv s (PyInt (count m + n))) as [q|e] eqn:Eq.
    2:{ injection E as <- <-. apply py_truediv_raises in Eq; [|lia]. subst e.
        split; [now right | discriminate]. }
    set (m1 := {| val := v; avg := q; sum := s; count := count m + n;
                  avg_values := avg_values m ++ [q] |}) in *.
    destruct (IH m1 r m' ltac:(simpl; lia) Hrest E) as (Hr & Hok).
    split; [exact Hr|]. intros Er.
    destruct (Hok Er) as (Hval & Hsum & Hcount & Havg & hist & Hh & Hhist).
    cbn [val sum count avg_values m1] in Hval, Hsum, Hcount, Hh, Hhist.
    split.
    { rewrite Hval. destruct rest as [|c rest']; [reflexivity|].
      change (map fst ((v, n) :: c :: rest'))
        with (v :: map fst (c :: rest')).
      change (List.last (v :: map fst (c :: rest')) (val m))
        with (List.last (map fst (c :: rest')) (val m)).
      apply last_cons_default. }
    split.
    { simpl. rewrite Ep. simpl. rewrite Es. simpl. exact Hsum. }
    split.
    { rewrite Hcount. simpl. lia. }
    split.
    { intros _. destruct rest as [|c rest'].
      - simpl in E. unfold ret in E. injection E as _ <-. exact Eq.
      - apply Havg. discriminate. }
    exists (q :: hist). split.
    { rewrite Hh. now rewrite <- app_assoc. }
    simpl length. simpl seq. simpl map. f_equal.
    { unfold running_from. simpl. rewrite Ep. simpl. rewrite Es. simpl.
      now rewrite Z.add_0_r. }
    rewrite Hhist. rewrite <- seq_shift, map_map.
    apply map_ext. intros k. unfold running_from.
    change (firstn (S (S k)) ((v, n) :: rest))
      with ((v, n) :: firstn (S k) rest).
    simpl accumulate. rewrite Ep. simpl. rewrite Es. simpl.
    now rewrite Z.add_assoc.
Qed.



End AverageMeterFacts.





(** ** ImageFolderLMDB *)

Section DatasetFacts.
Context {codec : Codec}.
Import ImageFolderLMDB.

Lemma set_rng_set_rng g g' w : set_rng g (set_rng g' w) = set_rng g w.
Proof. reflexivity. Qed.

Lemma set_rng_same w : set_rng (rng w) w = w.
Proof. now destruct w. Qed.

(** [__init__] on a path with no archive raises and changes nothing. *)
Lemma init_unavailable p tr ttr w :
  fs w !! p = None ->
  __init__ p tr ttr w = (Raise LmdbError, w).
Proof.
  intros E. unfold __init__, bind, lmdb.open. now rewrite E.
Qed.

(** [__init__] on an archive whose reserved entries unpickle. *)
Lemma init_returns p tr ttr w A l k :
  fs w !! p = Some A ->
  loads (A !! "__len__"%string) = Ok l ->
  loads (A !! "__keys__"%string) = Ok k ->
  __init__ p tr ttr w =
    (Ok (mk p tr ttr l k None None), set_conns (S (conns w)) w).
Proof.
  intros E El Ek.
  unfold __init__, bind, lmdb.open, lmdb.begin, lift_result, ret. rewrite E.
  simpl. rewrite E. simpl. rewrite El, Ek. reflexivity.
Qed.

(** Whatever [__init__] returns has neither [env] nor [txn], holds what
    the reserved entries unpickle to, and cost one environment. *)
Lemma init_inv p tr ttr w h w' :
  __init__ p tr ttr w = (Ok h, w') ->
  exists A l k,
    fs w !! p = Some A /\
    loads (A !! "__len__"%string) = Ok l /\
    loads (A !! "__keys__"%string) = Ok k /\
    h = mk p tr ttr l k None None /\
    w' = set_conns (S (conns w)) w.
Proof.
  unfold __init__, bind, lmdb.open, lmdb.begin, lift_result, ret.
  destruct (fs w !! p) as [A|] eqn:E; [|discriminate].
  simpl. rewrite E. simpl.
  destruct (loads (A !! "__len__"%string)) as [l|] eqn:El; [|discriminate].
  destruct (loads (A !! "__keys__"%string)) as [k|] eqn:Ek; [|discriminate].
  intros [= <- <-]. exists A, l, k. auto.
Qed.

(** [open_lmdb] on an archive whose reserved entries unpickle. *)
Lemma open_lmdb_returns h w A l k :
  fs w !! db_path h = Some A ->
  loads (A !! "__len__"%string) = Ok l ->
  loads (A !! "__keys__"%string) = Ok k ->
  open_lmdb (h, w) =
    (Ok tt,
     (mk (db_path h) (transform h) (target_transform h) l k
         (Some (new_env (db_path h) w)) (Some (new_txn (db_path h) w A)),
      set_conns (S (conns w)) w)).
Proof.
  intros E El Ek.
  unfold open_lmdb, bind, on_self, on_world, zoom, get_state, modify,
    lmdb.open, lmdb.begin, lift_result.
  simpl. rewrite E. simpl. rewrite E. simpl. rewrite El. simpl.
  rewrite Ek. reflexivity.
Qed.

(** However [open_lmdb] ends on a path that holds an archive, the object
    has its transaction afterwards. *)
Lemma open_lmdb_keeps_txn h w A :
  fs w !! db_path h = Some A ->
  exists h',
    snd (open_lmdb (h, w)) = (h', set_conns (S (conns w)) w) /\
    env h' = Some (new_env (db_path h) w) /\
    txn h' = Some (new_txn (db_path h) w A).
Proof.
  intros E.
  unfold open_lmdb, bind, on_self, on_world, zoom, get_state, modify,
    lmdb.open, lmdb.begin, lift_result.
  simpl. rewrite E. simpl. rewrite E. simpl.
  destruct (loads (A !! "__len__"%string)) as [l|]; simpl.
  - destruct (loads (A !! "__keys__"%string)) as [k|]; simpl;
      eexists; repeat split.
  - eexists; repeat split.
Qed.

(** [fetch] leaves the object alone; in the world it can only advance the
    random generator. *)
Lemma fetch_state i h w :
  exists g, snd (fetch i (h, w)) = (h, set_rng g w).
Proof.
  unfold fetch, bind, on_self, on_world, with_rng, zoom, get_state,
    lift_result, raise.
  simpl. destruct (txn h) as [x|]; [|exists (rng w); now rewrite set_rng_same].
  destruct (py_getitem (keys h) i) as [key|];
    [|exists (rng w); now rewrite set_rng_same].
  destruct (lmdb.get x key) as [b|];
    [|exists (rng w); now rewrite set_rng_same].
  destruct (decode b) as [s|]; [|exists (rng w); now rewrite set_rng_same].
  simpl. destruct (transformed h s (rng w)) as [r g]. now exists g.
Qed.

(** The outcome of [fetch] as a function of the keys, the view and the
    random generator. *)
Lemma fetch_outcome i h w x :
  txn h = Some x ->
  fst (fetch i (h, w)) =
    and_then (py_getitem (keys h) i) (fun key =>
    and_then (lmdb.get x key) (fun byteflow =>
    and_then (decode byteflow) (fun s =>
    fst (transformed h s (rng w))))).
Proof.
  intros E.
  unfold fetch, bind, on_self, on_world, with_rng, zoom, get_state,
    lift_result.
  simpl. rewrite E.
  destruct (py_getitem (keys h) i) as [key|]; [|reflexivity]. simpl.
  destruct (lmdb.get x key) as [b|]; [|reflexivity]. simpl.
  destruct (decode b) as [s|]; [|reflexivity]. simpl.
  now destruct (transformed h s (rng w)).
Qed.

(** [__getitem__] on an object that has its transaction is [fetch]. *)
Lemma getitem_opened i h w x :
  txn h = Some x -> __getitem__ i (h, w) = fetch i (h, w).
Proof.
  intros E. unfold __getitem__, bind, on_self, zoom, get_state, ret.
  simpl. now rewrite E.
Qed.

(** [__getitem__] on an object without transaction, when [open_lmdb]
    returns: [fetch] on the opened object. *)
Lemma getitem_unopened i h w A l k :
  txn h = None ->
  fs w !! db_path h = Some A ->
  loads (A !! "__len__"%string) = Ok l ->
  loads (A !! "__keys__"%string) = Ok k ->
  __getitem__ i (h, w) =
    fetch i
      (mk (db_path h) (transform h) (target_transform h) l k
          (Some (new_env (db_path h) w)) (Some (new_txn (db_path h) w A)),
       set_conns (S (conns w)) w).
Proof.
  intros En E El Ek. unfold __getitem__.
  rewrite (bind_Ok _ _ (h, w) h (h, w)) by reflexivity.
  rewrite En.
  now rewrite (bind_Ok _ _ _ _ _ (open_lmdb_returns h w A l k E El Ek)).
Qed.

(** Whatever the outcome, after [__getitem__] on a path that holds an
    archive the object has a transaction. *)
Lemma getitem_keeps_txn i h w A :
  txn h = None ->
  fs w !! db_path h = Some A ->
  exists h' g,
    snd (__getitem__ i (h, w)) = (h', set_rng g (set_conns (S (conns w)) w)) /\
    env h' = Some (new_env (db_path h) w) /\
    txn h' = Some (new_txn (db_path h) w A).
Proof.
  intros En E.
  destruct (open_lmdb_keeps_txn h w A E) as (h' & Hs & He & Ht).
  unfold __getitem__.
  rewrite (bind_Ok _ _ (h, w) h (h, w)) by reflexivity.
  rewrite En.
  destruct (open_lmdb (h, w)) as [[[]|e] s1] eqn:Eo; simpl in Hs; subst s1.
  - rewrite (bind_Ok _ _ _ _ _ Eo).
    destruct (fetch_state i h' (set_conns (S (conns w)) w)) as [g Hg].
    exists h', g. now rewrite Hg.
  - rewrite (bind_Raise _ _ _ _ _ Eo). exists h', (rng w). simpl.
    repeat split; trivial.
Qed.

(** Once the object has its transaction, no sequence of calls changes the
    object or opens anything. *)
Lemma getitems_opened indices : forall h w x,
  txn h = Some x ->
  exists g, snd (getitems indices (h, w)) = (h, set_rng g w).
Proof.
  induction indices as [|i rest IH]; intros h w x E.
  - exists (rng w). simpl. now rewrite set_rng_same.
  - simpl. rewrite (getitem_opened i h w x E).
    destruct (fetch_state i h w) as [g Hg].
    destruct (fetch i (h, w)) as [r s1]. simpl in Hg. subst s1.
    destruct (IH h (set_rng g w) x E) as [g' Hg'].
    destruct (getitems rest (h, set_rng g w)) as [rs s2]. simpl in *.
    exists g'. now rewrite Hg'.
Qed.

End DatasetFacts.

(** ** Indexing a Python sequence *)

Lemma seq_index_nonnegative {A} (l : list A) i :
  0 <= i < Z.of_nat (length l) ->
  exists x, nth_error l (Z.to_nat i) = Some x /\ seq_index l i = Ok x.
Proof.
  intros Hi. unfold seq_index.
  destruct (Z.ltb_spec i 0) as [?|_]; [lia|].
  destruct (Z.ltb_spec i 0) as [?|_]; [lia|].
  destruct (Z.leb_spec (Z.of_nat (length l)) i) as [?|_]; [lia|]. simpl.
  destruct (nth_error l (Z.to_nat i)) as [x|] eqn:E; [now exists x|].
  apply nth_error_None in E. lia.
Qed.

Lemma seq_index_negative {A} (l : list A) i :
  - Z.of_nat (length l) <= i < 0 ->
  exists x, nth_error l (Z.to_nat (Z.of_nat (length l) + i)) = Some x /\
            seq_index l i = Ok x.
Proof.
  intros Hi. unfold seq_index.
  destruct (Z.ltb_spec i 0) as [_|?]; [|lia].
  destruct (Z.ltb_spec (i + Z.of_nat (length l)) 0) as [?|_]; [lia|].
  destruct (Z.leb_spec (Z.of_nat (length l)) (i + Z.of_nat (length l)))
    as [?|_]; [lia|]. simpl.
  replace (Z.of_nat (length l) + i) with (i + Z.of_nat (length l)) by lia.
  destruct (nth_error l (Z.to_nat (i + Z.of_nat (length l)))) as [x|] eqn:E;
    [now exists x|].
  apply nth_error_None in E. lia.
Qed.

Lemma seq_index_outside {A} (l : list A) i :
  i < - Z.of_nat (length l) \/ Z.of_nat (length l) <= i ->
  seq_index l i = Raise IndexError.
Proof.
  intros Hi. unfold seq_index.
  destruct (Z.ltb_spec i 0) as [Hneg|Hpos].
  - destruct (Z.ltb_spec (i + Z.of_nat (length l)) 0) as [_|?]; [|lia].
    reflexivity.
  - destruct (Z.ltb_spec i 0) as [?|_]; [lia|].
    destruct (Z.leb_spec (Z.of_nat (length l)) i) as [_|?]; [|lia].
    reflexivity.
Qed.

Lemma seq_index_map {A B} (f : A -> B) (l : list A) i :
  seq_index (map f l) i = and_then (seq_index l i) (fun x => Ok (f x)).
Proof.
  unfold seq_index. rewrite length_map.
  destruct ((_ <? 0) || (_ <=? _)); [reflexivity|].
  rewrite nth_error_map. now destruct (nth_error l _).
Qed.

Section GetFacts.
Context {codec : Codec}.
Import ImageFolderLMDB.

(** [fetch] on an object whose transaction views [A] and whose keys are
    [ks] is [sample_outcome]. *)
Lemma fetch_sample_outcome i h w x A ks :
  txn h = Some x -> lmdb.view x = A -> keys h = PList (map PBytes ks) ->
  fetch i (h, w) =
    (fst (sample_outcome h A ks i (rng w)),
     (h, set_rng (snd (sample_outcome h A ks i (rng w))) w)).
Proof.
  intros Ex Ev Ek.
  unfold fetch, sample_outcome, bind, on_self, on_world, with_rng, zoom,
    get_state, lift_result.
  simpl. rewrite Ex, Ek. simpl. rewrite seq_index_map.
  destruct (seq_index ks i) as [k|e]; simpl; [|now rewrite set_rng_same].
  rewrite Ev.
  destruct (lmdb.lookup A k) as [b|e]; simpl; [|now rewrite set_rng_same].
  destruct (decode b) as [s|e]; simpl; [|now rewrite set_rng_same].
  now destruct (transformed h s (rng w)).
Qed.

(** A key that is not empty is looked up in the archive. *)
Lemma lookup_nonempty (A : gmap bytes bytes) (k : bytes) :
  k <> ""%string -> lmdb.lookup A k = Ok (A !! k).
Proof.
  intros Hk. unfold lmdb.lookup.
  destruct (String.eqb_spec k ""); [contradiction | reflexivity].
Qed.

(** A call on a handle that serves [A]: the outcome is [sample_outcome],
    an object without transaction gets one, and the handle still serves
    [A] afterwards. *)
Lemma getitem_serves i h w A ks :
  serves h w A ks ->
  let h' := match txn h with Some _ => h | None => opened h w A ks end in
  let w' := match txn h with
            | Some _ => w
            | None => set_conns (S (conns w)) w
            end in
  let out := sample_outcome h A ks i (rng w) in
  __getitem__ i (h, w) = (fst out, (h', set_rng (snd out) w')) /\
  serves h' (set_rng (snd out) w') A ks /\
  transform h' = transform h /\
  target_transform h' = target_transform h.
Proof.
  intros (Efs & (Wl & Wk & Wr) & El & Ek & Ev).
  destruct (txn h) as [x|] eqn:Ex; simpl.
  - rewrite (getitem_opened i h w x Ex).
    rewrite (fetch_sample_outcome i h w x A ks Ex (Ev x eq_refl) Ek).
    split; [reflexivity|]. split; [|split; reflexivity].
    unfold serves. simpl. split; [exact Efs|].
    split; [exact (conj Wl (conj Wk Wr))|].
    split; [exact El|]. split; [exact Ek|].
    intros x0 E0. rewrite Ex in E0. now apply Ev.
  - rewrite (getitem_unopened i h w A _ _ Ex Efs Wl Wk).
    fold (opened h w A ks).
    rewrite (fetch_sample_outcome i (opened h w A ks) _
               (new_txn (db_path h) w A) A ks eq_refl eq_refl eq_refl).
    split; [reflexivity|]. split; [|split; reflexivity].
    unfold serves. simpl. split; [exact Efs|].
    split; [exact (conj Wl (conj Wk Wr))|].
    split; [reflexivity|]. split; [reflexivity|].
    now intros x [= <-].
Qed.

Lemma transformed_returns h s g :
  never_raises (transform h) -> never_raises (target_transform h) ->
  is_Ok (fst (transformed h s g)).
Proof.
  intros Ht Htt. unfold transformed, bind, apply_transform, ret.
  destruct (transform h) as [f|] eqn:Ef.
  - specialize (Ht f (fst s) g eq_refl).
    destruct (f (fst s) g) as [[a|e] g1]; [|contradiction]. simpl.
    destruct (target_transform h) as [f'|] eqn:Ef'; [|exact I].
    specialize (Htt f' (snd s) g1 eq_refl).
    now destruct (f' (snd s) g1) as [[b|e] g2].
  - simpl. destruct (target_transform h) as [f'|] eqn:Ef'; [|exact I].
    specialize (Htt f' (snd s) g eq_refl).
    now destruct (f' (snd s) g) as [[b|e] g2].
Qed.

(** With transforms that do not use the random generator, neither does
    [sample_outcome]. *)
Lemma sample_outcome_keeps_rng h A ks i g :
  deterministic (transform h) -> deterministic (target_transform h) ->
  snd (sample_outcome h A ks i g) = g.
Proof.
  intros Ht Htt. unfold sample_outcome, bind, lift_result.
  destruct (seq_index ks i) as [k|]; [|reflexivity].
  destruct (lmdb.lookup A k) as [b|]; [|reflexivity].
  destruct (decode b) as [s|]; [|reflexivity].
  unfold transformed, bind, apply_transform, ret.
  destruct (transform h) as [f|].
  - destruct (Ht f eq_refl) as [pf Hpf]. rewrite Hpf.
    destruct (pf (fst s)) as [a|]; [|reflexivity].
    destruct (target_transform h) as [f'|]; [|reflexivity].
    destruct (Htt f' eq_refl) as [pf' Hpf']. rewrite Hpf'.
    now destruct (pf' (snd s)).
  - simpl. destruct (target_transform h) as [f'|]; [|reflexivity].
    destruct (Htt f' eq_refl) as [pf' Hpf']. rewrite Hpf'.
    now destruct (pf' (snd s)).
Qed.

(** [sample_outcome] reads the two transforms of the object only. *)
Lemma sample_outcome_ext h1 h2 A ks i g :
  transform h1 = transform h2 ->
  target_transform h1 = target_transform h2 ->
  sample_outcome h1 A ks i g = sample_outcome h2 A ks i g.
Proof.
  intros E1 E2. unfold sample_outcome, transformed. now rewrite E1, E2.
Qed.

End GetFacts.

(** ** The claims about [__getitem__] and [__init__] *)

Section ConnectionClaims.
Context {codec : Codec}.
Import ImageFolderLMDB.

(** C1 (amended).  On a handle that serves a well-formed archive of
    [n] samples, with transforms that return, [len] is [n] and
    [get(index)] returns the decoded and transformed sample of the key at
    position [index] when [0 <= index < n], and of the key at position
    [n + index] when [-n <= index < 0]; it raises IndexError when
    [index >= n] or [index < -n]. *)
Theorem C1_getitem_index_range (h : t) (w : World) (A : gmap bytes bytes)
    (ks : list bytes) (i : Z)
    (Hs : serves h w A ks)
    (Ht : never_raises (transform h))
    (Htt : never_raises (target_transform h)) :
  let n := Z.of_nat (List.length ks) in
  let outcome := fst (__getitem__ i (h, w)) in
  __len__ h = PInt n /\
  (- n <= i < n ->
     exists k s,
       nth_error ks (Z.to_nat (if i <? 0 then n + i else i)) = Some k /\
       decode (A !! k) = Ok s /\
       outcome = fst (transformed h s (rng w)) /\
       is_Ok outcome) /\
  (i < - n \/ n <= i -> outcome = Raise IndexError).
Proof.
  intros n outcome.
  destruct (getitem_serves i h w A ks Hs) as (Hget & _).
  assert (Hout : outcome = fst (sample_outcome h A ks i (rng w))).
  { unfold outcome. now rewrite Hget. }
  destruct Hs as (_ & (_ & _ & Wr) & El & _).
  split; [exact El|]. split.
  - intros Hi.
    assert (Hk : exists k, nth_error ks (Z.to_nat (if i <? 0 then n + i else i))
                           = Some k /\ seq_index ks i = Ok k).
    { destruct (Z.ltb_spec i 0).
      - apply seq_index_negative. fold n. lia.
      - apply seq_index_nonnegative. fold n. lia. }
    destruct Hk as (k & Hnth & Hidx).
    destruct (Wr k (nth_error_In _ _ Hnth)) as [Hkey Hdec].
    destruct (decode (A !! k)) as [s|e] eqn:Ed; [|contradiction].
    exists k, s. split; [exact Hnth|]. split; [exact Ed|].
    assert (E : outcome = fst (transformed h s (rng w))).
    { rewrite Hout. unfold sample_outcome, bind, lift_result.
      now rewrite Hidx, (lookup_nonempty A k Hkey), Ed. }
    split; [exact E|]. rewrite E. now apply transformed_returns.
  - intros Hi. rewrite Hout. unfold sample_outcome, bind, lift_result.
    now rewrite (seq_index_outside ks i Hi).
Qed.

(** C2.  On a handle without connection whose path holds an archive, after
    any non-empty sequence of [get] calls exactly one environment has been
    opened, and the handle holds that environment and its transaction -
    the ones the first call created; when the reserved entries unpickle,
    the handle holds the count and the key sequence read through it. *)
Theorem C2_connection_opened_once (h : t) (w : World) (A : gmap bytes bytes)
    (indices : list Z)
    (Hnone : txn h = None)
    (Hfs : fs w !! db_path h = Some A)
    (Hne : indices <> []) :
  exists h' g,
    snd (getitems indices (h, w))
    = (h', set_rng g (set_conns (S (conns w)) w)) /\
    env h' = Some (new_env (db_path h) w) /\
    txn h' = Some (new_txn (db_path h) w A) /\
    forall l k,
      loads (A !! "__len__"%string) = Ok l ->
      loads (A !! "__keys__"%string) = Ok k ->
      length h' = l /\ keys h' = k.
Proof.
  destruct indices as [|i rest]; [contradiction|]. clear Hne.
  destruct (getitem_keeps_txn i h w A Hnone Hfs) as (h1 & g1 & Hs1 & He1 & Ht1).
  destruct (getitems_opened rest h1 (set_rng g1 (set_conns (S (conns w)) w))
              _ Ht1) as (g2 & Hs2).
  exists h1, g2. simpl getitems.
  destruct (__getitem__ i (h, w)) as [r s1] eqn:E1. simpl in Hs1. subst s1.
  destruct (getitems rest _) as [rs s2]. simpl in Hs2 |- *. subst s2.
  split; [reflexivity|]. split; [exact He1|]. split; [exact Ht1|].
  intros l k El Ek.
  rewrite (getitem_unopened i h w A l k Hnone Hfs El Ek) in E1.
  destruct (fetch_state i
    (mk (db_path h) (transform h) (target_transform h) l k
        (Some (new_env (db_path h) w)) (Some (new_txn (db_path h) w A)))
    (set_conns (S (conns w)) w)) as (g & Hg).
  rewrite E1 in Hg. simpl in Hg. injection Hg as -> _. now split.
Qed.

(** C9.  On a handle without connection whose path holds an archive,
    [get(index)] leaves the handle with the environment and transaction
    it opened whatever its outcome; and when the key sequence was read, an
    index outside [-n, n) makes the call raise IndexError, after that
    opening. *)
Theorem C9_failed_get_keeps_connection (h : t) (w : World)
    (A : gmap bytes bytes) (i : Z)
    (Hnone : txn h = None)
    (Hfs : fs w !! db_path h = Some A) :
  (exists h' g,
     snd (__getitem__ i (h, w))
     = (h', set_rng g (set_conns (S (conns w)) w)) /\
     env h' = Some (new_env (db_path h) w) /\
     txn h' = Some (new_txn (db_path h) w A)) /\
  (forall l ks,
     loads (A !! "__len__"%string) = Ok l ->
     loads (A !! "__keys__"%string) = Ok (PList ks) ->
     i < - Z.of_nat (List.length ks) \/ Z.of_nat (List.length ks) <= i ->
     fst (__getitem__ i (h, w)) = Raise IndexError).
Proof.
  split; [now apply getitem_keeps_txn|].
  intros l ks El Ek Hi.
  rewrite (getitem_unopened i h w A l (PList ks) Hnone Hfs El Ek).
  erewrite fetch_outcome by reflexivity.
  simpl. now rewrite (seq_index_outside ks i Hi).
Qed.

End ConnectionClaims.

Section IndexClaims.
Context {codec : Codec}.
Import ImageFolderLMDB.

(** C3 (amended).  On a handle that serves a well-formed archive, the
    outcome of [get(index)] is a function of the archive, the index, the
    two transforms and the state of the random generator: any handle on
    the same archive with the same transforms gives the same outcome from
    the same generator state.  When the transforms make no use of the
    generator, a second call with the same index gives the outcome of the
    first. *)
Theorem C3_get_repeatable (h : t) (w : World) (A : gmap bytes bytes)
    (ks : list bytes) (i : Z)
    (Hs : serves h w A ks) :
  (forall h2 w2,
     serves h2 w2 A ks ->
     transform h2 = transform h ->
     target_transform h2 = target_transform h ->
     rng w2 = rng w ->
     fst (__getitem__ i (h2, w2)) = fst (__getitem__ i (h, w))) /\
  (deterministic (transform h) ->
   deterministic (target_transform h) ->
   fst (__getitem__ i (snd (__getitem__ i (h, w))))
   = fst (__getitem__ i (h, w))).
Proof.
  destruct (getitem_serves i h w A ks Hs) as (Hget & Hs1 & Et1 & Ett1).
  assert (Hsame : forall h2 w2,
     serves h2 w2 A ks ->
     transform h2 = transform h ->
     target_transform h2 = target_transform h ->
     rng w2 = rng w ->
     fst (__getitem__ i (h2, w2)) = fst (__getitem__ i (h, w))).
  { intros h2 w2 Hs2 Et Ett Er.
    destruct (getitem_serves i h2 w2 A ks Hs2) as (Hget2 & _).
    rewrite Hget, Hget2. simpl. rewrite Er.
    now rewrite (sample_outcome_ext h2 h A ks i (rng w) Et Ett). }
  split; [exact Hsame|].
  intros Hd Hdt. rewrite Hget at 1. simpl.
  apply Hsame; trivial.
  simpl. now apply sample_outcome_keeps_rng.
Qed.

(** C5 (amended).  Constructing a handle opens the archive and reads the
    index: on a path without archive it raises the storage error and
    changes nothing; on a path with an archive it unpickles the count and
    the key sequence from the two reserved entries, raises what the
    unpickling raises, and otherwise returns an object that holds both
    and keeps neither the environment nor a transaction. *)
Theorem C5_init_reads_index (p : string) (tr ttr : option callable)
    (w : World) :
  (fs w !! p = None -> __init__ p tr ttr w = (Raise LmdbError, w)) /\
  (forall A,
     fs w !! p = Some A ->
     (forall l k,
        loads (A !! "__len__"%string) = Ok l ->
        loads (A !! "__keys__"%string) = Ok k ->
        __init__ p tr ttr w
        = (Ok (mk p tr ttr l k None None), set_conns (S (conns w)) w)) /\
     (forall e,
        loads (A !! "__len__"%string) = Raise e ->
        fst (__init__ p tr ttr w) = Raise e) /\
     (forall l e,
        loads (A !! "__len__"%string) = Ok l ->
        loads (A !! "__keys__"%string) = Raise e ->
        fst (__init__ p tr ttr w) = Raise e)).
Proof.
  split; [apply init_unavailable|].
  intros A E. split; [intros l k; now apply init_returns|].
  split.
  - intros e El.
    unfold __init__, bind, lmdb.open, lmdb.begin, lift_result, ret.
    rewrite E. simpl. rewrite E. simpl. now rewrite El.
  - intros l e El Ek.
    unfold __init__, bind, lmdb.open, lmdb.begin, lift_result, ret.
    rewrite E. simpl. rewrite E. simpl. now rewrite El, Ek.
Qed.

(** C10.  The environment that [__init__] opens (the one numbered
    [conns w0]) is not kept: the object it returns has neither [env] nor
    [txn].  The first [get] on that object, in any later world whose
    archive at the path has reserved entries that unpickle, opens another
    environment with a different number, and leaves the object with the
    count and keys read through it, whatever [__init__] had stored: the
    call does the same on an object holding any other count and keys. *)
Theorem C10_first_get_rereads_index (p : string) (tr ttr : option callable)
    (w0 w0' : World) (h : t)
    (w : World) (A' : gmap bytes bytes) (l' k' : pyobj) (i : Z)
    (Hinit : __init__ p tr ttr w0 = (Ok h, w0'))
    (Hlater : (conns w0' <= conns w)%nat)
    (Hfs : fs w !! p = Some A')
    (Hl : loads (A' !! "__len__"%string) = Ok l')
    (Hk : loads (A' !! "__keys__"%string) = Ok k') :
  lmdb.open p w0 = (Ok (new_env p w0), w0') /\
  env h = None /\ txn h = None /\
  lmdb.env_id (new_env p w) <> lmdb.env_id (new_env p w0) /\
  (exists g,
     snd (__getitem__ i (h, w))
     = (mk p tr ttr l' k' (Some (new_env p w)) (Some (new_txn p w A')),
        set_rng g (set_conns (S (conns w)) w))) /\
  (forall l0 k0,
     __getitem__ i (set_keys k0 (set_length l0 h), w) = __getitem__ i (h, w)).
Proof.
  destruct (init_inv p tr ttr w0 h w0' Hinit)
    as (A & l & k & E0 & El0 & Ek0 & -> & ->).
  simpl in Hlater.
  split.
  { unfold lmdb.open. now rewrite E0. }
  split; [reflexivity|]. split; [reflexivity|].
  split; [simpl; lia|].
  split.
  - rewrite (getitem_unopened i (mk p tr ttr l k None None) w A' l' k'
               eq_refl Hfs Hl Hk). simpl.
    apply fetch_state.
  - intros l0 k0.
    rewrite (getitem_unopened i (mk p tr ttr l k None None) w A' l' k'
               eq_refl Hfs Hl Hk).
    now rewrite (getitem_unopened i
                   (set_keys k0 (set_length l0 (mk p tr ttr l k None None)))
                   w A' l' k' eq_refl Hfs Hl Hk).
Qed.

End IndexClaims.

(** ** The dataset on the concrete installation *)

Section ConnectionRuns.
Import ImageFolderLMDB Scenario.

Lemma scenario_serves :
  serves (codec := toy_codec) handle world_after_init archive
    ["0"; "1"]%string.
Proof.
  unfold serves, well_formed. repeat split; try reflexivity.
  - destruct H as [<-|[<-|[]]]; discriminate.
  - destruct H as [<-|[<-|[]]]; vm_compute; exact I.
  - intros x [=].
Defined.

Lemma none_never_raises : never_raises None.
Proof. intros g o r [=]. Defined.

Lemma none_deterministic : deterministic None.
Proof. intros g [=]. Defined.

Lemma C1_getitem_index_range_witness :
  serves (codec := toy_codec) handle world_after_init archive
    ["0"; "1"]%string /\
  never_raises (transform handle) /\
  never_raises (target_transform handle) /\
  is_Ok (fst (__getitem__ (codec := toy_codec) 1 (handle, world_after_init))).
Proof.
  split; [exact scenario_serves|].
  split; [exact none_never_raises|]. split; [exact none_never_raises|].
  destruct (C1_getitem_index_range (codec := toy_codec) handle
              world_after_init archive ["0"; "1"]%string 1
              scenario_serves none_never_raises none_never_raises)
    as (_ & Hin & _).
  destruct Hin as (k & s & _ & _ & _ & Hok); [simpl; lia|].
  exact Hok.
Defined.

(** C1 as stated fails: the handle that [__init__] returns for the
    two-sample archive has length 2, the index -1 is outside [0, 2), and
    [get(-1)] returns the last sample instead of raising IndexError. *)
Lemma C1_negative_index_counterexample :
  __init__ (codec := toy_codec) db None None world
  = (Ok handle, world_after_init) /\
  __len__ handle = PInt 2 /\
  ~ (0 <= -1 < 2) /\
  fst (__getitem__ (codec := toy_codec) (-1) (handle, world_after_init))
  = Ok (PImage [[(30, 30, 30); (40, 40, 40)]], PInt 9) /\
  fst (__getitem__ (codec := toy_codec) (-1) (handle, world_after_init))
  <> Raise IndexError.
Proof.
  split; [reflexivity|]. split; [reflexivity|]. split; [lia|].
  split; [reflexivity|]. discriminate.
Qed.

Lemma C2_connection_opened_once_witness :
  txn handle = None /\
  fs world_after_init !! db_path handle = Some archive /\
  [0; 5; 1] <> [] /\
  exists h' g,
    snd (getitems (codec := toy_codec) [0; 5; 1] (handle, world_after_init))
    = (h', set_rng g (set_conns 2 world_after_init)) /\
    txn h' = Some (new_txn db world_after_init archive).
Proof.
  split; [reflexivity|]. split; [reflexivity|]. split; [discriminate|].
  destruct (C2_connection_opened_once (codec := toy_codec) handle
              world_after_init archive [0; 5; 1] eq_refl eq_refl
              ltac:(discriminate))
    as (h' & g & Hs & _ & Ht & _).
  exists h', g. split; [exact Hs | exact Ht].
Defined.

Lemma C9_failed_get_keeps_connection_witness :
  txn handle = None /\
  fs world_after_init !! db_path handle = Some archive /\
  fst (__getitem__ (codec := toy_codec) 5 (handle, world_after_init))
  = Raise IndexError /\
  exists h' g,
    snd (__getitem__ (codec := toy_codec) 5 (handle, world_after_init))
    = (h', set_rng g (set_conns 2 world_after_init)) /\
    txn h' = Some (new_txn db world_after_init archive).
Proof.
  split; [reflexivity|]. split; [reflexivity|].
  destruct (C9_failed_get_keeps_connection (codec := toy_codec) handle
              world_after_init archive 5 eq_refl eq_refl)
    as ((h' & g & Hs & _ & Ht) & Hraise).
  split.
  - apply (Hraise (PInt 2) [PBytes "0"; PBytes "1"]%string);
      [reflexivity | reflexivity | simpl; lia].
  - exists h', g. split; [exact Hs | exact Ht].
Defined.

End ConnectionRuns.

Section IndexRuns.
Import ImageFolderLMDB Scenario.

Lemma C3_get_repeatable_witness :
  serves (codec := toy_codec) handle world_after_init archive
    ["0"; "1"]%string /\
  deterministic (transform handle) /\
  deterministic (target_transform handle) /\
  fst (__getitem__ (codec := toy_codec) 0
         (snd (__getitem__ (codec := toy_codec) 0 (handle, world_after_init))))
  = fst (__getitem__ (codec := toy_codec) 0 (handle, world_after_init)).
Proof.
  split; [exact scenario_serves|].
  split; [exact none_deterministic|]. split; [exact none_deterministic|].
  destruct (C3_get_repeatable (codec := toy_codec) handle world_after_init
              archive ["0"; "1"]%string 0 scenario_serves) as (_ & Hrep).
  exact (Hrep none_deterministic none_deterministic).
Defined.

(** C3 as stated fails: with the transform that the program configures,
    two successive calls [get(0)] on the unchanged archive return
    different samples - the first draw of the random generator flips the
    image, the second does not.  (The crop, tensor and normalisation
    stages are taken to leave the image alone here; the flip alone
    separates the two calls.) *)
Lemma C3_configured_transform_counterexample :
  __init__ (codec := toy_codec) db
    (Some (main.configured_transform (torchvision := plain_stages))) None
    world
  = (Ok configured_handle, world_after_init) /\
  fs (snd (snd (__getitem__ (codec := toy_codec) 0
                  (configured_handle, world_after_init))))
  = fs world_after_init /\
  fst (__getitem__ (codec := toy_codec) 0
         (configured_handle, world_after_init))
  = Ok (PImage [[(20, 20, 20); (10, 10, 10)]], PInt 7) /\
  fst (__getitem__ (codec := toy_codec) 0
         (snd (__getitem__ (codec := toy_codec) 0
                 (configured_handle, world_after_init))))
  = Ok (PImage [[(10, 10, 10); (20, 20, 20)]], PInt 7) /\
  fst (__getitem__ (codec := toy_codec) 0
         (snd (__getitem__ (codec := toy_codec) 0
                 (configured_handle, world_after_init))))
  <> fst (__getitem__ (codec := toy_codec) 0
            (configured_handle, world_after_init)).
Proof.
  assert (E1 : fst (__getitem__ (codec := toy_codec) 0
                      (configured_handle, world_after_init))
               = Ok (PImage [[(20, 20, 20); (10, 10, 10)]], PInt 7))
    by (vm_compute; reflexivity).
  assert (E2 : fst (__getitem__ (codec := toy_codec) 0
                 (snd (__getitem__ (codec := toy_codec) 0
                         (configured_handle, world_after_init))))
               = Ok (PImage [[(10, 10, 10); (20, 20, 20)]], PInt 7))
    by (vm_compute; reflexivity).
  split; [vm_compute; reflexivity|]. split; [vm_compute; reflexivity|].
  split; [exact E1|]. split; [exact E2|].
  rewrite E1, E2. discriminate.
Qed.

Lemma C5_init_reads_index_witness :
  fs world !! db = Some archive /\
  loads (codec := toy_codec) (archive !! "__len__"%string) = Ok (PInt 2) /\
  loads (codec := toy_codec) (archive !! "__keys__"%string)
  = Ok (PList [PBytes "0"; PBytes "1"]) /\
  __init__ (codec := toy_codec) db None None world
  = (Ok handle, set_conns (S (conns world)) world).
Proof.
  split; [reflexivity|]. split; [reflexivity|]. split; [reflexivity|].
  destruct (C5_init_reads_index (codec := toy_codec) db None None world)
    as (_ & Hsome).
  destruct (Hsome archive eq_refl) as (Hok & _).
  exact (Hok (PInt 2) (PList [PBytes "0"; PBytes "1"]) eq_refl eq_refl).
Defined.

(** C5 as stated fails: construction reads the index.  The object it
    returns holds the count and the key sequence of the archive; on the
    same records under a shorter index it holds that shorter index; and
    on an archive that opens for reading but has no reserved entries it
    raises. *)
Lemma C5_init_loads_index_counterexample :
  (exists h w',
     __init__ (codec := toy_codec) db None None world = (Ok h, w') /\
     length h = PInt 2 /\
     keys h = PList [PBytes "0"; PBytes "1"]) /\
  (exists h w',
     __init__ (codec := toy_codec) db None None
       (world_with (Some archive_reindexed)) = (Ok h, w') /\
     length h = PInt 1 /\
     keys h = PList [PBytes "1"]) /\
  (fst (lmdb.open db (world_with (Some archive_without_index)))
   = Ok (new_env db (world_with (Some archive_without_index))) /\
   fst (__init__ (codec := toy_codec) db None None
          (world_with (Some archive_without_index)))
   = Raise TypeError).
Proof.
  split; [|split].
  - eexists _, _. split; [vm_compute; reflexivity|]. split; reflexivity.
  - eexists _, _. split; [vm_compute; reflexivity|]. split; reflexivity.
  - split; vm_compute; reflexivity.
Qed.

Lemma C10_first_get_rereads_index_witness :
  __init__ (codec := toy_codec) db None None world
  = (Ok handle, world_after_init) /\
  (conns world_after_init <= conns world_reindexed)%nat /\
  fs world_reindexed !! db = Some archive_reindexed /\
  loads (codec := toy_codec) (archive_reindexed !! "__len__"%string)
  = Ok (PInt 1) /\
  loads (codec := toy_codec) (archive_reindexed !! "__keys__"%string)
  = Ok (PList [PBytes "1"]) /\
  length handle = PInt 2 /\
  exists g,
    snd (__getitem__ (codec := toy_codec) 0 (handle, world_reindexed))
    = (mk db None None (PInt 1) (PList [PBytes "1"])
          (Some (new_env db world_reindexed))
          (Some (new_txn db world_reindexed archive_reindexed)),
       set_rng g (set_conns 2 world_reindexed)).
Proof.
  split; [reflexivity|]. split; [simpl; lia|]. split; [reflexivity|].
  split; [reflexivity|]. split; [reflexivity|]. split; [reflexivity|].
  destruct (C10_first_get_rereads_index (codec := toy_codec) db None None
              world world_after_init handle world_reindexed archive_reindexed
              (PInt 1) (PList [PBytes "1"]) 0
              eq_refl ltac:(simpl; lia) eq_refl eq_refl eq_refl)
    as (_ & _ & _ & _ & Hget & _).
  exact Hget.
Defined.

End IndexRuns.

(** ** The driver *)

Section TrainFacts.
Context {loader : DataLoader} {torch : Torch}.

(** One update of a timing meter with a time difference: while the
    count is below [2 ^ 53] it returns, and the meter holds floats. *)
Lemma update_time d m :
  0 <= AverageMeter.count m < 2 ^ 53 - 1 ->
  timing (AverageMeter.sum m) ->
  exists s a,
    AverageMeter.update (PyFloat d) 1 m
    = (Ok tt,
       {| AverageMeter.val := PyFloat d;
          AverageMeter.avg := PyFloat a;
          AverageMeter.sum := PyFloat s;
          AverageMeter.count := AverageMeter.count m + 1;
          AverageMeter.avg_values := AverageMeter.avg_values m ++ [PyFloat a] |}).
Proof.
  intros Hc Ht.
  destruct (py_mul_float d 1 ltac:(lia)) as (p & Ep).
  destruct (py_add_timing (AverageMeter.sum m) (PyFloat p) Ht
              ltac:(right; eauto)) as (s & Es & _).
  destruct (py_add_float_r _ _ _ Es) as (g & ->).
  destruct (py_truediv_float g (AverageMeter.count m + 1) ltac:(lia))
    as (q & Eq).
  exists g, q. now rewrite update_unfold, Ep, Es, Eq.
Qed.

(** An update with a float that returns leaves a float in [sum]. *)
Lemma update_float_sum d n m m' :
  AverageMeter.update (PyFloat d) n m = (Ok tt, m') ->
  exists s, AverageMeter.sum m' = PyFloat s.
Proof.
  rewrite update_unfold.
  destruct (py_mul (PyFloat d) (PyInt n)) as [p|] eqn:Ep; [|discriminate].
  destruct (py_add (AverageMeter.sum m) p) as [s|] eqn:Es; [|discriminate].
  destruct (py_truediv s _); [|discriminate].
  intros [= <-]. simpl.
  assert (Hp : exists g, p = PyFloat g).
  { simpl in Ep. unfold float_op in Ep. simpl in Ep.
    destruct (float_of_int n); simpl in Ep; [|discriminate].
    injection Ep as <-. eauto. }
  destruct Hp as (g & ->). exact (py_add_float_r _ _ _ Es).
Qed.

(** The loop body, outcome by outcome: the data-time update, the
    training step and the batch-time update can each end it. *)
Lemma body_unfold b bt dt e w :
  let r := readings (clock w) in
  let n := ticks (clock w) in
  let tick k := set_clock {| readings := r; ticks := n + k |} w in
  train.body b {| train.batch_time := bt; train.data_time := dt;
                  train.end_ := e; train.world := w |}
  = match AverageMeter.update (PyFloat (float_sub (r n) e)) 1 dt with
    | (Raise x, dt') =>
        (Raise x, {| train.batch_time := bt; train.data_time := dt';
                     train.end_ := e; train.world := tick 1%nat |})
    | (Ok _, dt') =>
        match training_step (trained w) b with
        | Raise x =>
            (Raise x, {| train.batch_time := bt; train.data_time := dt';
                         train.end_ := e; train.world := tick 1%nat |})
        | Ok _ =>
            match AverageMeter.update
                    (PyFloat (float_sub (r (S n)) e)) 1 bt with
            | (Raise x, bt') =>
                (Raise x,
                 {| train.batch_time := bt'; train.data_time := dt';
                    train.end_ := e;
                    train.world := set_trained (trained w ++ [b])
                                     (tick 2%nat) |})
            | (Ok _, bt') =>
                (Ok tt,
                 {| train.batch_time := bt'; train.data_time := dt';
                    train.end_ := r (S (S n));
                    train.world := set_trained (trained w ++ [b])
                                     (tick 3%nat) |})
            end
        end
    end.
Proof.
  intros r n tick. subst r n tick.
  cbv beta iota zeta delta
    [train.body bind train.now zoom with_clock time_time get_state modify
     train.set_data_time train.set_batch_time train.set_world train.set_end
     train.data_time train.batch_time train.end_ train.world train.step].
  cbn [clock set_clock readings ticks trained].
  replace (ticks (clock w) + 1)%nat with (S (ticks (clock w))) by lia.
  replace (ticks (clock w) + 2)%nat with (S (S (ticks (clock w)))) by lia.
  replace (ticks (clock w) + 3)%nat with (S (S (S (ticks (clock w))))) by lia.
  destruct (AverageMeter.update _ 1 dt) as [[[]|x] dt']; [|reflexivity].
  cbn [clock set_clock readings ticks trained set_trained].
  destruct (training_step (trained w) b) as [[]|x]; [|reflexivity].
  cbn [clock set_clock readings ticks trained set_trained].
  destruct (AverageMeter.update _ 1 bt) as [[[]|x] bt']; reflexivity.
Qed.

Lemma set_clock_same w : set_clock (clock w) w = w.
Proof. now destruct w. Qed.

Lemma set_trained_same w : set_trained (trained w) w = w.
Proof. now destruct w. Qed.

(** One more batch on which the training step returns. *)
Lemma body_after_batches w0 n0 done b f :
  after_batches w0 n0 done f ->
  Z.of_nat (length done) < 2 ^ 53 - 1 ->
  training_step (trained w0 ++ done) b = Ok tt ->
  exists f',
    train.body b f = (Ok tt, f') /\ after_batches w0 n0 (done ++ [b]) f'.
Proof.
  unfold after_batches. rewrite length_app. cbn [length].
  set (j := length done).
  intros (Hw & He & Hcb & Hcd & Hlb & Hld & Htb & Htd) Hj Hstep.
  destruct f as [bt dt e w].
  cbn [train.world train.end_ train.batch_time train.data_time] in *.
  subst w e. rewrite body_unfold.
  cbn [clock set_clock set_trained readings ticks trained].
  destruct (update_time
              (float_sub (readings (clock w0) (n0 + 1 + 3 * j)%nat)
                 (readings (clock w0) (n0 + 3 * j)%nat)) dt
              ltac:(lia) Htd) as (sd & ad & ->).
  rewrite Hstep.
  destruct (update_time
              (float_sub (readings (clock w0) (S (n0 + 1 + 3 * j)))
                 (readings (clock w0) (n0 + 3 * j)%nat)) bt
              ltac:(lia) Htb) as (sb & ab & ->).
  eexists. split; [reflexivity|].
  cbn [train.world train.end_ train.batch_time train.data_time
       AverageMeter.count AverageMeter.sum AverageMeter.avg_values].
  split.
  { unfold set_trained, set_clock. simpl. rewrite <- app_assoc.
    do 2 f_equal. lia. }
  split; [f_equal; lia|].
  split; [lia|]. split; [lia|].
  split; [rewrite length_app; simpl; lia|].
  split; [rewrite length_app; simpl; lia|].
  split; right; eauto.
Qed.



(** The loop over batches that all arrive and on which the training
    step returns. *)
Lemma loop_after_batches w0 n0 bs : forall done f,
  after_batches w0 n0 done f ->
  Z.of_nat (length done + length bs) < 2 ^ 53 ->
  steps_return (trained w0 ++ done) bs ->
  exists f',
    train.loop (map Ok bs) f = (Ok tt, f') /\
    after_batches w0 n0 (done ++ bs) f'.
Proof.
  induction bs as [|b rest IH]; intros done f Hf Hlen Hsteps.
  - exists f. split; [reflexivity|]. now rewrite app_nil_r.
  - destruct Hsteps as [Hb Hrest]. simpl length in Hlen.
    destruct (body_after_batches w0 n0 done b f Hf ltac:(lia) Hb)
      as (f1 & E1 & Hf1).
    destruct (IH (done ++ [b]) f1 Hf1) as (f2 & E2 & Hf2).
    { rewrite length_app. simpl. lia. }
    { rewrite app_assoc. exact Hrest. }
    exists f2. simpl. rewrite (bind_Ok _ _ _ _ _ E1).
    split; [exact E2|]. now rewrite <- app_assoc in Hf2.
Qed.

(** The world in which the loop of a pass begins, and the frame it begins
    with. *)
Lemma pass_begins w :
  let n0 := ticks (clock w) in
  let w0 := set_epoch (S (epoch w))
              (set_clock {| readings := readings (clock w); ticks := S n0 |} w) in
  after_batches w0 n0 []
    {| train.batch_time := AverageMeter.new;
       train.data_time := AverageMeter.new;
       train.end_ := readings (clock w) n0;
       train.world := w0 |}.
Proof.
  intros n0 w0. unfold after_batches.
  cbn [train.world train.end_ train.batch_time train.data_time length].
  replace (n0 + 1 + 3 * 0)%nat with (S n0) by lia.
  replace (n0 + 3 * 0)%nat with n0 by lia.
  split.
  { unfold w0, set_trained, set_epoch, set_clock. simpl.
    now rewrite app_nil_r. }
  split; [reflexivity|].
  split; [reflexivity|]. split; [reflexivity|].
  split; [reflexivity|]. split; [reflexivity|].
  split; now left.
Qed.

(** [train] is its loop run from that frame. *)
Lemma train_unfold ds w :
  train.train ds w =
    let n0 := ticks (clock w) in
    let w0 := set_epoch (S (epoch w))
                (set_clock {| readings := readings (clock w); ticks := S n0 |}
                   w) in
    let '(r, f) :=
      train.loop (arrivals ds (epoch w))
        {| train.batch_time := AverageMeter.new;
           train.data_time := AverageMeter.new;
           train.end_ := readings (clock w) n0;
           train.world := w0 |} in
    (match r with
     | Ok _ => Ok (train.batch_time f, train.data_time f)
     | Raise e => Raise e
     end, train.world f).
Proof. reflexivity. Qed.

(** A pass in which nothing fails returns its two meters, with one
    update each per batch. *)
Lemma train_returns ds w bs :
  pass_succeeds ds (epoch w) (trained w) bs ->
  exists batch_time data_time,
    train.train ds w
    = (Ok (batch_time, data_time), pass_world w bs (1 + 3 * length bs)) /\
    AverageMeter.count batch_time = Z.of_nat (length bs) /\
    AverageMeter.count data_time = Z.of_nat (length bs) /\
    length (AverageMeter.avg_values batch_time) = length bs /\
    length (AverageMeter.avg_values data_time) = length bs /\
    timing (AverageMeter.sum batch_time) /\
    timing (AverageMeter.sum data_time).
Proof.
  intros (Harr & Hlen & Hsteps). rewrite train_unfold. cbv zeta.
  rewrite Harr.
  destruct (loop_after_batches _ _ bs [] _ (pass_begins w))
    as (f & E & Hf).
  { simpl. lia. }
  { simpl. now rewrite app_nil_r. }
  rewrite E. destruct Hf as (Hw & _ & Hcb & Hcd & Hlb & Hld & Htb & Htd).
  exists (train.batch_time f), (train.data_time f).
  rewrite Hw. simpl in *.
  split.
  { f_equal. unfold pass_world, set_trained, set_epoch, set_clock. simpl.
    do 2 f_equal. lia. }
  auto 10.
Qed.



(** However the loop body ends, in the world it has only read the clock
    and, when the step returned, trained the model on the batch. *)
Lemma body_frame b f :
  exists done reads,
    train.world (snd (train.body b f))
    = set_trained (trained (train.world f) ++ done)
        (set_clock {| readings := readings (clock (train.world f));
                      ticks := ticks (clock (train.world f)) + reads |}
           (train.world f)).
Proof.
  destruct f as [bt dt e w]. rewrite body_unfold. cbn [train.world].
  destruct (AverageMeter.update _ 1 dt) as [[[]|x] dt'].
  2:{ exists [], 1%nat. simpl. unfold set_trained. simpl.
      now rewrite app_nil_r. }
  destruct (training_step (trained w) b) as [[]|x].
  2:{ exists [], 1%nat. simpl. unfold set_trained. simpl.
      now rewrite app_nil_r. }
  destruct (AverageMeter.update _ 1 bt) as [[[]|x] bt'].
  - now exists [b], 3%nat.
  - now exists [b], 2%nat.
Qed.

Lemma loop_frame items : forall f,
  exists done reads,
    train.world (snd (train.loop items f))
    = set_trained (trained (train.world f) ++ done)
        (set_clock {| readings := readings (clock (train.world f));
                      ticks := ticks (clock (train.world f)) + reads |}
           (train.world f)).
Proof.
  induction items as [|[b|e] rest IH]; intros f.
  - exists [], 0%nat. simpl. rewrite app_nil_r, Nat.add_0_r.
    destruct (train.world f) as [? ? ? ? [] ? ? ?]. reflexivity.
  - simpl train.loop. unfold bind.
    destruct (body_frame b f) as (d1 & r1 & H1).
    destruct (train.body b f) as [[[]|e] f1]; simpl in H1.
    + destruct (IH f1) as (d2 & r2 & H2). rewrite H2, H1.
      exists (d1 ++ d2), (r1 + r2)%nat. simpl.
      unfold set_trained, set_clock. simpl. rewrite <- app_assoc.
      do 2 f_equal. lia.
    + exists d1, r1. exact H1.
  - exists [], 0%nat. simpl. rewrite app_nil_r, Nat.add_0_r.
    destruct (train.world f) as [? ? ? ? [] ? ? ?]. reflexivity.
Qed.

(** However a pass ends, it leaves a world in which only the clock, the
    pass counter and the model have moved on. *)
Lemma train_frame ds w :
  exists done reads, snd (train.train ds w) = pass_world w done reads.
Proof.
  rewrite train_unfold. cbv zeta.
  match goal with
  | |- context [train.loop ?items ?f] =>
      destruct (loop_frame items f) as (done & reads & W);
      destruct (train.loop items f) as [r f']
  end.
  exists done, (S reads). simpl in W |- *. rewrite W.
  unfold pass_world, set_trained, set_epoch, set_clock. simpl.
  do 2 f_equal. lia.
Qed.

(** The meters that a pass returns hold timing values in [sum]. *)
Lemma body_timing b f f' :
  train.body b f = (Ok tt, f') ->
  timing (AverageMeter.sum (train.batch_time f')) /\
  timing (AverageMeter.sum (train.data_time f')).
Proof.
  destruct f as [bt dt e w]. rewrite body_unfold.
  destruct (AverageMeter.update _ 1 dt) as [[[]|x] dt'] eqn:Ed; [|discriminate].
  destruct (training_step (trained w) b) as [[]|x]; [|discriminate].
  destruct (AverageMeter.update _ 1 bt) as [[[]|x] bt'] eqn:Eb; [|discriminate].
  intros [= <-]. simpl.
  destruct (update_float_sum _ _ _ _ Ed) as (sd & ->).
  destruct (update_float_sum _ _ _ _ Eb) as (sb & ->).
  split; right; eauto.
Qed.

Lemma loop_timing items : forall f f',
  timing (AverageMeter.sum (train.batch_time f)) ->
  timing (AverageMeter.sum (train.data_time f)) ->
  train.loop items f = (Ok tt, f') ->
  timing (AverageMeter.sum (train.batch_time f')) /\
  timing (AverageMeter.sum (train.data_time f')).
Proof.
  induction items as [|[b|e] rest IH]; intros f f' Hb Hd E; simpl in E.
  - unfold ret in E. injection E as <-. now split.
  - unfold bind in E.
    destruct (train.body b f) as [[[]|e] f1] eqn:E1; [|discriminate].
    destruct (body_timing b f f1 E1) as [Hb1 Hd1]. now apply (IH f1).
  - discriminate.
Qed.

Lemma train_timing ds w r w1 :
  train.train ds w = (Ok r, w1) ->
  timing (AverageMeter.sum (fst r)) /\ timing (AverageMeter.sum (snd r)).
Proof.
  rewrite train_unfold. cbv zeta.
  match goal with
  | |- context [train.loop ?items ?f] =>
      pose proof (loop_timing items f) as H;
      destruct (train.loop items f) as [[[]|e] f']; [|discriminate]
  end.
  intros [= <- <-]. simpl. apply H; (now left) || reflexivity.
Qed.

End TrainFacts.

Section SummaryFacts.
Context {codec : Codec} {torchvision : Torchvision} {loader : DataLoader}
  {torch : Torch} {numpy : Numpy}.
Import main.

(** [n] passes whose outcomes are the runs [runs]: the accumulators get
    the averages of the runs appended and their sums added. *)
Lemma passes_runs ds w runs w2 :
  train_runs ds w runs w2 ->
  forall a,
    timing (batch_time_sum a) -> timing (data_time_sum a) ->
    exists total_batch total_data,
      total_from (batch_time_sum a)
        (map (fun r => AverageMeter.sum (fst r)) runs) = Ok total_batch /\
      total_from (data_time_sum a)
        (map (fun r => AverageMeter.sum (snd r)) runs) = Ok total_data /\
      passes (length runs) ds a w
      = (Ok {| batch_time_avg :=
                 batch_time_avg a
                 ++ map (fun r => AverageMeter.avg (fst r)) runs;
               data_time_avg :=
                 data_time_avg a
                 ++ map (fun r => AverageMeter.avg (snd r)) runs;
               batch_time_sum := total_batch;
               data_time_sum := total_data |}, w2).
Proof.
  induction 1 as [w|w r w1 rs w2 Et Hrs IH]; intros a Hb Hd.
  - exists (batch_time_sum a), (data_time_sum a).
    split; [reflexivity|]. split; [reflexivity|].
    simpl. unfold ret. rewrite !app_nil_r. now destruct a.
  - destruct (train_timing _ _ _ _ Et) as [Htb Htd].
    destruct (py_add_timing _ _ Hb Htb) as (sb & Esb & Hsb).
    destruct (py_add_timing _ _ Hd Htd) as (sd & Esd & Hsd).
    set (a1 := {| batch_time_avg :=
                    batch_time_avg a ++ [AverageMeter.avg (fst r)];
                  data_time_avg :=
                    data_time_avg a ++ [AverageMeter.avg (snd r)];
                  batch_time_sum := sb; data_time_sum := sd |}).
    assert (Ea : record_pass a (fst r) (snd r) = Ok a1).
    { unfold record_pass. rewrite Esb. simpl. rewrite Esd. reflexivity. }
    destruct (IH a1 Hsb Hsd) as (tb & td & Etb & Etd & Ep).
    exists tb, td. simpl map. simpl total_from.
    rewrite Esb, Esd. simpl.
    split; [exact Etb|]. split; [exact Etd|].
    simpl passes. rewrite (bind_Ok _ _ _ _ _ Et).
    unfold lift_result at 1. unfold bind at 1. rewrite Ea.
    rewrite Ep. simpl. now rewrite <- !app_assoc.
Qed.

(** Passes in which nothing fails are runs of [train], one after the
    other. *)
Lemma passes_succeed_runs ds bss : forall w,
  passes_succeed ds (epoch w) (trained w) bss ->
  exists runs w2,
    length runs = length bss /\
    train_runs ds w runs w2 /\
    epoch w2 = (epoch w + length bss)%nat /\
    trained w2 = trained w ++ concat bss /\
    stdout w2 = stdout w.
Proof.
  induction bss as [|bs rest IH]; intros w Hp.
  - exists [], w. repeat split; [constructor | simpl; lia |].
    simpl. now rewrite app_nil_r.
  - destruct Hp as [Hbs Hrest].
    destruct (train_returns ds w bs Hbs) as (bt & dt & Et & _).
    destruct (IH (pass_world w bs (1 + 3 * length bs)))
      as (runs & w2 & Hlen & Hruns & Hep & Htr & Hout).
    { exact Hrest. }
    exists ((bt, dt) :: runs), w2. simpl in Hep, Htr, Hout |- *.
    split; [lia|]. split; [econstructor; eassumption|].
    split; [lia|]. split; [now rewrite Htr, <- app_assoc | exact Hout].
Qed.

Lemma print_summary_prints b a w :
  print_summary b a w =
    (Ok tt,
     set_stdout (stdout w ++
       [ Timings_for b;
         Avg_data_time (np_mean (data_time_avg a));
         Avg_batch_time (np_mean (batch_time_avg a));
         Total_data_time (data_time_sum a);
         Total_batch_time (batch_time_sum a) ]) w).
Proof.
  unfold print_summary, bind, print, modify. simpl.
  now rewrite <- !app_assoc.
Qed.

(** Constructing a dataset prints nothing. *)
Lemma make_dataset_silent dir db b w :
  stdout (snd (make_dataset dir db b w)) = stdout w.
Proof.
  unfold make_dataset. destruct (String.eqb b "lmdb").
  - unfold bind, ImageFolderLMDB.__init__, bind, lmdb.open, lmdb.begin,
      lift_result, ret.
    destruct (fs w !! db) as [A|] eqn:E; [|reflexivity].
    simpl. rewrite E. simpl.
    destruct (loads (A !! "__len__"%string)); [|reflexivity].
    destruct (loads (A !! "__keys__"%string)); reflexivity.
  - unfold ImageFolder. now destruct (decide (dir ∈ folders w)).
Qed.

(** The loader is constructed, or its exception ends the backend; the
    world is not touched. *)
Lemma new_loader_returns ds w :
  loader_init ds = Ok tt -> new_loader ds w = (Ok ds, w).
Proof. intros E. unfold new_loader, lift_result. now rewrite E. Qed.

Lemma new_loader_raises ds w e :
  loader_init ds = Raise e -> new_loader ds w = (Raise e, w).
Proof. intros E. unfold new_loader, lift_result. now rewrite E. Qed.

(** A backend whose dataset cannot be constructed ends with the
    exception, having printed nothing. *)
Lemma backend_raises dir db b w e w1 :
  make_dataset dir db b w = (Raise e, w1) ->
  backend dir db b w = (Raise e, w1) /\ stdout w1 = stdout w.
Proof.
  intros E. split.
  - unfold backend. now rewrite (bind_Raise _ _ _ _ _ E).
  - pose proof (make_dataset_silent dir db b w) as Hs. now rewrite E in Hs.
Qed.

Lemma for_each_app pre post body w w1 :
  for_each pre body w = (Ok tt, w1) ->
  for_each (pre ++ post) body w = for_each post body w1.
Proof.
  revert w. induction pre as [|x pre IH]; intros w E; simpl in *.
  - unfold ret in E. now injection E as <-.
  - unfold bind in *. destruct (body x w) as [[[]|e] w'];
      [now apply IH | discriminate].
Qed.

(** The loop body for a backend whose dataset and loader are constructed
    and whose passes are the runs [runs]: the summary of these runs is
    printed. *)
Lemma backend_prints dir db b w w1 ds runs w2 :
  make_dataset dir db b w = (Ok ds, w1) ->
  loader_init ds = Ok tt ->
  train_runs ds w1 runs w2 ->
  length runs = 10%nat ->
  stdout w2 = stdout w1 ->
  exists total_data total_batch,
    totals runs total_data total_batch /\
    backend dir db b w
    = (Ok tt,
       set_stdout
         (stdout w ++ summary_lines b runs total_data total_batch) w2).
Proof.
  intros Hds Hl Hruns Hlen Hout.
  destruct (passes_runs ds w1 runs w2 Hruns acc0 ltac:(now left)
              ltac:(now left)) as (tb & td & Etb & Etd & Ep).
  rewrite Hlen in Ep.
  exists td, tb. split; [split; assumption|].
  unfold backend. rewrite (bind_Ok _ _ _ _ _ Hds).
  rewrite (bind_Ok _ _ _ _ _ (new_loader_returns ds w1 Hl)).
  rewrite (bind_Ok _ _ _ _ _ Ep). rewrite print_summary_prints.
  pose proof (make_dataset_silent dir db b w) as Hs.
  rewrite Hds in Hs. simpl in Hs. rewrite Hout, Hs. reflexivity.
Qed.

End SummaryFacts.

Section DriverClaims.
Context {codec : Codec} {torchvision : Torchvision} {loader : DataLoader}
  {torch : Torch} {numpy : Numpy}.
Import main.


(** C6 (amended).  When the backends before [b] have run and the dataset
    of [b] cannot be constructed, the loop over the backends ends with
    that exception: nothing is printed for [b], and no backend after [b]
    is run; what the earlier backends printed stays. *)
Theorem C6_open_failure_propagates (dir db : string)
    (pre post : list string) (b : string) (e : exn) (w w1 w2 : World)
    (Hpre : for_each pre (backend dir db) w = (Ok tt, w1))
    (Hfail : make_dataset dir db b w1 = (Raise e, w2)) :
  main dir db = (create_model ;;; for_each DBS (backend dir db))%py /\
  for_each (pre ++ b :: post) (backend dir db) w = (Raise e, w2) /\
  stdout w2 = stdout w1.
Proof.
  split; [reflexivity|].
  destruct (backend_raises dir db b w1 e w2 Hfail) as (Eb & Hout).
  split; [|exact Hout].
  rewrite (for_each_app pre (b :: post) _ w w1 Hpre).
  simpl. now rewrite (bind_Raise _ _ _ _ _ Eb).
Qed.

End DriverClaims.

(** ** The driver on the concrete installation *)

Section DriverRuns.
Import main Scenario.


Lemma C6_open_failure_propagates_witness :
  let run := for_each ["lmdb"%string]
               (backend (codec := toy_codec) (torchvision := plain_stages)
                  (loader := every_batch) (torch := plain_training)
                  (numpy := sequential_mean) dir db) world_without_folder in
  fst run = Ok tt /\
  make_dataset (codec := toy_codec) (torchvision := plain_stages) dir db
    "imagefolder" (snd run)
  = (Raise FileNotFoundError, snd run) /\
  main (codec := toy_codec) (torchvision := plain_stages)
    (loader := every_batch) (torch := plain_training)
    (numpy := sequential_mean) dir db world_without_folder
  = (Raise FileNotFoundError, snd run) /\
  length (stdout (snd run)) = 5%nat.
Proof.
  intros run.
  assert (Hfst : fst run = Ok tt) by (vm_compute; reflexivity).
  assert (Hpre : for_each ["lmdb"%string]
                   (backend (codec := toy_codec) (torchvision := plain_stages)
                      (loader := every_batch) (torch := plain_training)
                      (numpy := sequential_mean) dir db) world_without_folder
                 = (Ok tt, snd run)).
  { fold run. destruct run as [r w1]. simpl in Hfst |- *. now rewrite Hfst. }
  assert (Hfail : make_dataset (codec := toy_codec)
                    (torchvision := plain_stages) dir db "imagefolder"
                    (snd run)
                  = (Raise FileNotFoundError, snd run))
    by (vm_compute; reflexivity).
  split; [exact Hfst|]. split; [exact Hfail|].
  destruct (C6_open_failure_propagates (codec := toy_codec)
              (torchvision := plain_stages) (loader := every_batch)
              (torch := plain_training) (numpy := sequential_mean)
              dir db ["lmdb"%string] [] "imagefolder" FileNotFoundError
              world_without_folder (snd run) (snd run) Hpre Hfail)
    as (Hmain & Hrun & _).
  split; [|vm_compute; reflexivity].
  rewrite Hmain.
  rewrite (bind_Ok _ _ world_without_folder tt world_without_folder)
    by reflexivity.
  exact Hrun.
Defined.

(** C6 as stated fails: with no archive at the path and the image folder
    in place, [main] ends with the storage error of the first backend and
    has printed nothing - no report for the failed backend and no summary
    for the image-folder backend, which on its own runs to its summary in
    the same world. *)
Lemma C6_driver_aborts_counterexample :
  fs (world_with None) !! db = None /\
  dir ∈ folders (world_with None) /\
  fst (main (codec := toy_codec) (torchvision := plain_stages)
         (loader := every_batch) (torch := plain_training)
         (numpy := sequential_mean) dir db (world_with None))
  = Raise LmdbError /\
  stdout (snd (main (codec := toy_codec) (torchvision := plain_stages)
                 (loader := every_batch) (torch := plain_training)
                 (numpy := sequential_mean) dir db (world_with None)))
  = [] /\
  fst (backend (codec := toy_codec) (torchvision := plain_stages)
         (loader := every_batch) (torch := plain_training)
         (numpy := sequential_mean) dir db "imagefolder" (world_with None))
  = Ok tt /\
  length (stdout (snd (backend (codec := toy_codec)
                         (torchvision := plain_stages)
                         (loader := every_batch) (torch := plain_training)
                         (numpy := sequential_mean) dir db "imagefolder"
                         (world_with None))))
  = 5%nat.
Proof.
  split; [reflexivity|]. split; [vm_compute; set_solver|].
  split; [reflexivity|]. split; [reflexivity|].
  split; vm_compute; reflexivity.
Qed.

End DriverRuns.

(** ** The batches of a pass *)

Section Batches.
Import BatchingPipeline.
Local Open Scope nat_scope.

Variable batch_size : nat.
Hypothesis batch_size_positive : 0 < batch_size.

(** What [for_each_pass] delivers from a batch under construction that is
    not yet full. *)
Lemma for_each_pass_from sampler : forall batch,
  length batch < batch_size ->
  let batches := for_each_pass batch_size batch sampler in
  concat batches = batch ++ sampler /\
  length batches
  = (length batch + length sampler + batch_size - 1) / batch_size /\
  Forall (fun b => 1 <= length b <= batch_size) batches /\
  (forall i b, nth_error batches i = Some b -> S i < length batches ->
               length b = batch_size).
Proof.
  induction sampler as [|idx rest IH]; intros batch Hlt; simpl.
  - destruct batch as [|x batch'] eqn:Eb.
    + simpl. repeat split; [| constructor | intros i b; now destruct i].
      symmetry. apply Nat.div_small. lia.
    + simpl concat. rewrite !app_nil_r. repeat split.
      * simpl length in *.
        replace (S (length batch') + 0 + batch_size - 1)
          with (1 * batch_size + length batch') by lia.
        rewrite Nat.div_add_l by lia. rewrite Nat.div_small by lia. lia.
      * constructor; [simpl in *; lia | constructor].
      * intros [|i] b Hn Hi; simpl in Hi; lia.
  - destruct (Nat.eqb_spec (length (batch ++ [idx])) batch_size) as [Efull|Hnot].
    + destruct (IH [] batch_size_positive) as (Hc & Hl & Hall & Hfull).
      simpl in Hc, Hl. simpl concat. rewrite Hc. repeat split.
      * now rewrite <- app_assoc.
      * simpl length. rewrite Hl. rewrite length_app in Efull. simpl in Efull.
        replace (length batch + S (length rest) + batch_size - 1)
          with (1 * batch_size + (length rest + batch_size - 1)) by lia.
        rewrite Nat.div_add_l by lia. lia.
      * constructor; [lia | exact Hall].
      * intros [|i] b Hn Hi; simpl in Hn, Hi.
        -- now injection Hn as <-.
        -- apply (Hfull i b Hn). lia.
    + rewrite length_app in Hnot. simpl in Hnot.
      destruct (IH (batch ++ [idx])) as (Hc & Hl & Hall & Hfull).
      { rewrite length_app. simpl. lia. }
      repeat split.
      * rewrite Hc. now rewrite <- app_assoc.
      * rewrite Hl. rewrite length_app. simpl. f_equal. lia.
      * exact Hall.
      * exact Hfull.
Qed.

End Batches.

(** C4.  For a dataset of length [L] and a positive [batch_size], a pass
    over the [L] indices in the sampler's order yields
    ceil(L / batch_size) batches; every batch but the last has
    [batch_size] indices, every batch has between 1 and [batch_size]; and
    the batches together hold the sampler's order, a rearrangement of
    [0, ..., L-1] without repetition. *)
Theorem C4_batches_per_pass (L batch_size : nat) (order : list nat)
    (Hpos : (0 < batch_size)%nat)
    (Horder : BatchingPipeline.sampler_order L order) :
  let batches := BatchingPipeline.for_each_pass batch_size [] order in
  length batches = ((L + batch_size - 1) / batch_size)%nat /\
  (forall i b, nth_error batches i = Some b ->
               (S i < length batches)%nat -> length b = batch_size) /\
  Forall (fun b => (1 <= length b <= batch_size)%nat) batches /\
  concat batches = order /\
  Permutation (concat batches) (seq 0 L) /\
  List.NoDup (concat batches).
Proof.
  intros batches.
  destruct (for_each_pass_from batch_size Hpos order [] Hpos)
    as (Hc & Hl & Hall & Hfull).
  fold batches in Hc, Hl, Hall, Hfull. simpl in Hc, Hl.
  assert (HL : length order = L).
  { rewrite (Permutation_length Horder). apply length_seq. }
  split; [now rewrite Hl, HL|]. split; [exact Hfull|].
  split; [exact Hall|]. split; [exact Hc|].
  rewrite Hc. split; [exact Horder|].
  apply (Permutation_NoDup (Permutation_sym Horder)). apply seq_NoDup.
Qed.

Lemma C4_batches_per_pass_witness :
  (0 < 2)%nat /\
  BatchingPipeline.sampler_order 5 [3; 0; 4; 1; 2]%nat /\
  BatchingPipeline.for_each_pass 2 [] [3; 0; 4; 1; 2]%nat
  = [[3; 0]; [4; 1]; [2]]%nat /\
  length (BatchingPipeline.for_each_pass 2 [] [3; 0; 4; 1; 2]%nat) = 3%nat /\
  Permutation
    (concat (BatchingPipeline.for_each_pass 2 [] [3; 0; 4; 1; 2]%nat))
    (seq 0 5).
Proof.
  assert (Hpos : (0 < 2)%nat) by lia.
  assert (Horder : BatchingPipeline.sampler_order 5 [3; 0; 4; 1; 2]%nat).
  { unfold BatchingPipeline.sampler_order. simpl.
    apply (NoDup_Permutation_bis).
    - repeat constructor; simpl; intuition lia.
    - simpl. lia.
    - intros x Hx. simpl in *. intuition lia. }
  split; [exact Hpos|]. split; [exact Horder|]. split; [reflexivity|].
  destruct (C4_batches_per_pass 5 2 [3; 0; 4; 1; 2]%nat Hpos Horder)
    as (Hlen & _ & _ & _ & Hperm & _).
  split; [exact Hlen | exact Hperm].
Defined.

(** * Further properties of the code *)

(** ** AverageMeter: the division by zero and the weight of an update *)

Section AverageMeterMore.
Import AverageMeter.

(** X1.  An [update] that brings [count] to zero - [update(v, 0)] on a new
    meter, or a negative weight that cancels the count - raises
    ZeroDivisionError after [val], [sum] and [count] have been assigned:
    the meter keeps the new [val] and [sum] and a zero [count], with
    [avg] and the history as before the call.  This is so whenever the
    product and the sum are numbers; when one of them is beyond the
    floats, the update ends with OverflowError earlier, with only [val]
    assigned. *)
Theorem update_to_zero_count_raises (v : pynum) (n : Z) (m : t)
    (Hzero : count m + n = 0) :
  (forall p s,
     py_mul v (PyInt n) = Ok p -> py_add (sum m) p = Ok s ->
     update v n m =
       (Raise ZeroDivisionError,
        {| val := v; avg := avg m; sum := s;
           count := 0; avg_values := avg_values m |})) /\
  (forall e,
     py_mul v (PyInt n) = Raise e \/
     (exists p, py_mul v (PyInt n) = Ok p /\ py_add (sum m) p = Raise e) ->
     e = OverflowError /\ update v n m = (Raise e, set_val v m)).
Proof.
  split.
  - intros p s Ep Es. rewrite update_unfold, Ep, Es, Hzero.
    now rewrite py_truediv_zero.
  - intros e [Ep|(p & Ep & Es)]; rewrite update_unfold, Ep.
    + split; [now apply py_mul_raises in Ep | reflexivity].
    + rewrite Es. split; [now apply py_add_raises in Es | reflexivity].
Qed.

Lemma update_to_zero_count_raises_witness :
  count new + 0 = 0 /\
  py_mul (PyInt 5) (PyInt 0) = Ok (PyInt 0) /\
  py_add (sum new) (PyInt 0) = Ok (PyInt 0) /\
  fst (update (PyInt 5) 0 new) = Raise ZeroDivisionError /\
  count (snd (update (PyInt 5) 0 new)) = 0 /\
  avg_values (snd (update (PyInt 5) 0 new)) = [].
Proof.
  split; [reflexivity|]. split; [reflexivity|]. split; [reflexivity|].
  destruct (update_to_zero_count_raises (PyInt 5) 0 new eq_refl) as (H & _).
  rewrite (H (PyInt 0) (PyInt 0) eq_refl eq_refl).
  repeat split.
Defined.

Lemma total_weight_repeat (v : pynum) k :
  total_weight (repeat (v, 1) k) = Z.of_nat k.
Proof.
  induction k as [|k IH]; [reflexivity|]. simpl repeat. simpl total_weight.
  rewrite IH. lia.
Qed.

Lemma last_repeat {A} (x d : A) k : List.last (repeat x (S k)) d = x.
Proof.
  induction k as [|k IH]; [reflexivity|].
  change (List.last (repeat x (S k)) d = x). exact IH.
Qed.

(** X3.  One call [update(v, k)] with an int weight [k >= 1] leaves
    [val] and [count] as [k] calls [update(v)] do, and the history one
    entry longer where the [k] calls make it [k] entries longer.  [sum]
    and [avg] need not agree, since the one call rounds once and the [k]
    calls round [k] times: on a new meter [update(0.1, 10)] leaves the
    sum 1.0 and the average 0.1, ten calls [update(0.1)] leave
    0.9999999999999999 and 0.09999999999999999. *)
Theorem weighted_update_as_repeats (v : pynum) (k : nat) (m m1 m2 : t)
    (Hk : (1 <= k)%nat) (Hc : 0 <= count m)
    (H1 : update v (Z.of_nat k) m = (Ok tt, m1))
    (H2 : updates (repeat (v, 1) k) m = (Ok tt, m2)) :
  (val m1 = val m2 /\ count m1 = count m2 /\
   length (avg_values m1) = S (length (avg_values m)) /\
   length (avg_values m2) = (length (avg_values m) + k)%nat) /\
  (exists a b,
     update (PyFloat Scenario.tenth) 10 new = (Ok tt, a) /\
     updates (repeat (PyFloat Scenario.tenth, 1) 10) new = (Ok tt, b) /\
     sum a = PyFloat (S754_finite false 4503599627370496 (-52)) /\
     sum b = PyFloat (S754_finite false 9007199254740991 (-53)) /\
     avg a = PyFloat Scenario.tenth /\
     avg b = PyFloat (S754_finite false 7205759403792793 (-56))).
Proof.
  split.
  - destruct k as [|k]; [lia|].
    assert (Hall : Forall (fun c : pynum * Z => 1 <= snd c)
                     (repeat (v, 1) (S k))).
    { apply List.Forall_forall. intros c Hin. apply repeat_spec in Hin.
      subst c. simpl. lia. }
    destruct (updates_inv (repeat (v, 1) (S k)) m (Ok tt) m2 Hc Hall H2)
      as (_ & Hok).
    destruct (Hok eq_refl) as (Hval & _ & Hcount & _ & hist & Hh & Hhist).
    rewrite total_weight_repeat in Hcount.
    rewrite map_repeat, last_repeat in Hval.
    apply (f_equal (@length _)) in Hhist.
    rewrite !length_map, length_seq, repeat_length in Hhist.
    rewrite update_unfold in H1.
    destruct (py_mul v _); [|discriminate].
    destruct (py_add _ _); [|discriminate].
    destruct (py_truediv _ _); [|discriminate].
    injection H1 as <-. simpl.
    rewrite Hval, Hcount, Hh, !length_app, Hhist. simpl.
    repeat split; lia.
  - eexists _, _. split; [vm_compute; reflexivity|].
    split; [vm_compute; reflexivity|]. repeat split.
Qed.

Lemma weighted_update_as_repeats_witness :
  (1 <= 10)%nat /\ 0 <= count new /\
  exists m1 m2,
    update (PyFloat Scenario.tenth) 10 new = (Ok tt, m1) /\
    updates (repeat (PyFloat Scenario.tenth, 1) 10) new = (Ok tt, m2) /\
    count m1 = count m2 /\
    sum m1 <> sum m2.
Proof.
  assert (Hk : (1 <= 10)%nat) by lia.
  assert (Hc : 0 <= count new) by (simpl; lia).
  split; [exact Hk|]. split; [exact Hc|].
  pose (m1 := snd (update (PyFloat Scenario.tenth) 10 new)).
  pose (m2 := snd (updates (repeat (PyFloat Scenario.tenth, 1) 10) new)).
  assert (H1 : update (PyFloat Scenario.tenth) (Z.of_nat 10) new = (Ok tt, m1))
    by (vm_compute; reflexivity).
  assert (H2 : updates (repeat (PyFloat Scenario.tenth, 1) 10) new
               = (Ok tt, m2)) by (vm_compute; reflexivity).
  exists m1, m2. split; [exact H1|]. split; [exact H2|].
  split.
  - destruct (weighted_update_as_repeats (PyFloat Scenario.tenth) 10 new
                m1 m2 Hk Hc H1 H2) as ((_ & Hcount & _) & _).
    exact Hcount.
  - intros E. vm_compute in E. discriminate.
Defined.

End AverageMeterMore.

(** ** ImageFolderLMDB: failures, history and the stored index *)

Section HandleFacts.
Context {codec : Codec}.
Import ImageFolderLMDB.

(** A call on a handle that reads [A]: the outcome is [sample_outcome],
    and the handle reads [A] afterwards, through a transaction. *)
Lemma getitem_reads_from i h w A l ks :
  reads_from h w A l ks ->
  let h' := match txn h with
            | Some _ => h
            | None => mk (db_path h) (transform h) (target_transform h) l
                         (PList (map PBytes ks))
                         (Some (new_env (db_path h) w))
                         (Some (new_txn (db_path h) w A))
            end in
  let w' := match txn h with
            | Some _ => w
            | None => set_conns (S (conns w)) w
            end in
  let out := sample_outcome h A ks i (rng w) in
  __getitem__ i (h, w) = (fst out, (h', set_rng (snd out) w')) /\
  reads_from h' (set_rng (snd out) w') A l ks /\
  transform h' = transform h /\
  target_transform h' = target_transform h.
Proof.
  unfold reads_from. intros Hr.
  destruct (txn h) as [x|] eqn:Ex; simpl.
  - destruct Hr as (Ev & El & Ek).
    rewrite (getitem_opened i h w x Ex).
    rewrite (fetch_sample_outcome i h w x A ks Ex Ev Ek).
    rewrite Ex. repeat split; auto.
  - destruct Hr as (Efs & El & Ek).
    rewrite (getitem_unopened i h w A _ _ Ex Efs El Ek).
    erewrite (fetch_sample_outcome i _ _ (new_txn (db_path h) w A) A ks)
      by reflexivity.
    repeat split; auto.
Qed.

(** The outcome of one call, whatever the handle's history. *)
Lemma getitem_outcome i h w A l ks :
  reads_from h w A l ks ->
  fst (__getitem__ i (h, w)) = fst (sample_outcome h A ks i (rng w)).
Proof.
  intros Hr. destruct (getitem_reads_from i h w A l ks Hr) as (E & _).
  now rewrite E.
Qed.

(** X4.  On a handle that reads an archive, [get(index)] for an index
    whose key is [k] surfaces what goes wrong with the record of [k]: the
    empty key, which LMDB does not look up, raises BadValsizeError; any
    other key without record raises TypeError; a record that does not
    unpickle raises what unpickling raises; a record whose image bytes do
    not decode raises what the image decoder raises; and a record that
    holds the image but no label raises IndexError, although the index is
    valid. *)
Theorem getitem_record_failures (h : t) (w : World) (A : gmap bytes bytes)
    (l : pyobj) (ks : list bytes) (i : Z) (k : bytes)
    (Hr : reads_from h w A l ks)
    (Hk : seq_index ks i = Ok k) :
  let outcome := fst (__getitem__ i (h, w)) in
  (k = ""%string -> outcome = Raise BadValsizeError) /\
  (k <> ""%string -> A !! k = None -> outcome = Raise TypeError) /\
  (forall b e,
     k <> ""%string ->
     A !! k = Some b -> pickle_loads b = Raise e -> outcome = Raise e) /\
  (forall b ib rest label more e,
     k <> ""%string ->
     A !! k = Some b ->
     pickle_loads b
     = Ok (PTuple (PTuple (PBytes ib :: rest) :: label :: more)) ->
     Image_open ib = Raise e ->
     outcome = Raise e) /\
  (forall b ib rest img,
     k <> ""%string ->
     A !! k = Some b ->
     pickle_loads b = Ok (PTuple [PTuple (PBytes ib :: rest)]) ->
     Image_open ib = Ok img ->
     outcome = Raise IndexError).
Proof.
  intros outcome. unfold outcome.
  rewrite (getitem_outcome i h w A l ks Hr).
  unfold sample_outcome, bind, lift_result. rewrite Hk.
  split; [|split; [|split; [|split]]].
  - now intros ->.
  - intros Hne E. now rewrite (lookup_nonempty A k Hne), E.
  - intros b e Hne E Ep. rewrite (lookup_nonempty A k Hne), E.
    unfold decode. simpl. now rewrite Ep.
  - intros b ib rest label more e Hne E Ep Ei.
    rewrite (lookup_nonempty A k Hne), E. unfold decode. simpl.
    rewrite Ep. simpl. now rewrite Ei.
  - intros b ib rest img Hne E Ep Ei.
    rewrite (lookup_nonempty A k Hne), E. unfold decode. simpl.
    rewrite Ep. simpl. now rewrite Ei.
Qed.

Lemma getitem_unavailable (h : t) (w : World) (i : Z) :
  txn h = None ->
  fs w !! db_path h = None ->
  __getitem__ i (h, w) = (Raise LmdbError, (h, w)).
Proof.
  intros Hnone Hfs.
  unfold __getitem__, bind, on_self, zoom, get_state. simpl. rewrite Hnone.
  unfold open_lmdb, bind, on_self, on_world, zoom, get_state, lmdb.open.
  simpl. rewrite Hfs. simpl. now destruct h.
Qed.

(** X5.  When the archive cannot be opened, [get] on a handle without
    connection raises the storage error and changes neither the handle
    nor the world: the handle still has no connection, and the next call
    tries to open again. *)
Theorem getitem_open_failure_changes_nothing (h : t) (w : World) (i : Z)
    (Hnone : txn h = None)
    (Hfs : fs w !! db_path h = None) :
  __getitem__ i (h, w) = (Raise LmdbError, (h, w)).
Proof. exact (getitem_unavailable h w i Hnone Hfs). Qed.

(** X6.  When re-reading the index fails in the first [get], the handle
    is left opened with a stale index: if the count entry does not
    unpickle, the handle keeps the count and keys that [__init__] stored;
    if the count unpickles and the key sequence does not, it holds the new
    count beside the old keys.  Either way no later call re-reads the
    index or opens anything: the handle stays as that first call left
    it. *)
Theorem getitem_reread_failure_keeps_stale_index (h : t) (w : World)
    (A : gmap bytes bytes) (i : Z)
    (Hnone : txn h = None)
    (Hfs : fs w !! db_path h = Some A) :
  let e1 := new_env (db_path h) w in
  let x1 := new_txn (db_path h) w A in
  let w1 := set_conns (S (conns w)) w in
  (forall e,
     loads (A !! "__len__"%string) = Raise e ->
     __getitem__ i (h, w) = (Raise e, (set_txn x1 (set_env e1 h), w1))) /\
  (forall l e,
     loads (A !! "__len__"%string) = Ok l ->
     loads (A !! "__keys__"%string) = Raise e ->
     __getitem__ i (h, w)
     = (Raise e, (set_length l (set_txn x1 (set_env e1 h)), w1))) /\
  (forall h1 s1,
     snd (__getitem__ i (h, w)) = (h1, s1) ->
     forall indices, exists g,
       snd (getitems indices (h1, s1)) = (h1, set_rng g s1)).
Proof.
  intros e1 x1 w1. split; [|split].
  - intros e El.
    unfold __getitem__, bind, on_self, zoom, get_state. simpl. rewrite Hnone.
    unfold open_lmdb, bind, on_self, on_world, zoom, get_state, modify,
      lmdb.open, lmdb.begin, lift_result.
    simpl. rewrite Hfs. simpl. rewrite Hfs. simpl. now rewrite El.
  - intros l e El Ek.
    unfold __getitem__, bind, on_self, zoom, get_state. simpl. rewrite Hnone.
    unfold open_lmdb, bind, on_self, on_world, zoom, get_state, modify,
      lmdb.open, lmdb.begin, lift_result.
    simpl. rewrite Hfs. simpl. rewrite Hfs. simpl. rewrite El. simpl.
    now rewrite Ek.
  - intros h1 s1 E indices.
    destruct (getitem_keeps_txn i h w A Hnone Hfs) as (h' & g & Hs & _ & Ht).
    rewrite E in Hs. injection Hs as -> ->.
    now apply (getitems_opened indices h' _ _ Ht).
Qed.

End HandleFacts.

Section HandleHistory.
Context {codec : Codec}.
Import ImageFolderLMDB.

Lemma getitems_sample_outcomes indices : forall h w A l ks,
  reads_from h w A l ks ->
  deterministic (transform h) ->
  deterministic (target_transform h) ->
  fst (getitems indices (h, w))
  = map (fun i => fst (sample_outcome h A ks i (rng w))) indices.
Proof.
  induction indices as [|i rest IH]; intros h w A l ks Hr Hd Hdt;
    [reflexivity|].
  destruct (getitem_reads_from i h w A l ks Hr) as (E & Hr' & Et & Ett).
  simpl getitems. rewrite E.
  match type of Hr' with
  | reads_from ?h1 ?w1 _ _ _ =>
      specialize (IH h1 w1 A l ks Hr');
      rewrite Et, Ett in IH; specialize (IH Hd Hdt);
      destruct (getitems rest (h1, w1)) as [rs s2] eqn:Eg
  end.
  simpl in IH |- *. rewrite IH. f_equal.
  apply map_ext. intros j.
  rewrite (sample_outcome_keeps_rng h A ks i (rng w) Hd Hdt).
  destruct (txn h); simpl; now rewrite (sample_outcome_ext _ h A ks j _ Et Ett)
    || reflexivity.
Qed.

(** X7.  On a handle that reads an archive, with transforms that make no
    use of the random generator, a sequence of [get] calls gives for each
    index the outcome that a single call with that index gives: neither
    earlier successes nor earlier failures (a bad index, a record that
    does not decode) change what a later call returns. *)
Theorem getitems_independent_of_history (h : t) (w : World)
    (A : gmap bytes bytes) (l : pyobj) (ks : list bytes) (indices : list Z)
    (Hr : reads_from h w A l ks)
    (Hd : deterministic (transform h))
    (Hdt : deterministic (target_transform h)) :
  fst (getitems indices (h, w))
  = map (fun i => fst (__getitem__ i (h, w))) indices.
Proof.
  rewrite (getitems_sample_outcomes indices h w A l ks Hr Hd Hdt).
  apply map_ext. intros i. symmetry. now apply (getitem_outcome i h w A l ks).
Qed.

(** X8.  From construction on, and as long as the archive at the path is
    the one [__init__] read, the count, the keys, the path and the
    transforms of the handle never change: after any sequence of [get]
    calls, failed or not, [len] returns what it returned right after
    construction. *)
Theorem length_constant_over_gets (p : string) (tr ttr : option callable)
    (w w0 : World) (h : t) (indices : list Z)
    (Hinit : __init__ p tr ttr w0 = (Ok h, w))
    : let h' := fst (snd (getitems indices (h, w))) in
  __len__ h' = __len__ h /\ keys h' = keys h /\
  db_path h' = p /\ transform h' = tr /\ target_transform h' = ttr.
Proof.
  destruct (init_inv p tr ttr w0 h w Hinit) as (A & l & k & E & El & Ek & -> & ->).
  destruct indices as [|i rest]; [now simpl|].
  simpl getitems.
  assert (Efs : fs (set_conns (S (conns w0)) w0) !! p = Some A) by exact E.
  rewrite (getitem_unopened i (mk p tr ttr l k None None) _ A l k
             eq_refl Efs El Ek).
  cbn [db_path transform target_transform].
  set (w1 := set_conns (S (conns (set_conns (S (conns w0)) w0)))
               (set_conns (S (conns w0)) w0)).
  set (x1 := new_txn p (set_conns (S (conns w0)) w0) A).
  set (h1 := mk p tr ttr l k
               (Some (new_env p (set_conns (S (conns w0)) w0))) (Some x1)).
  destruct (fetch_state i h1 w1) as (g & Hg).
  destruct (fetch i (h1, w1)) as [r s1]. cbn [snd] in Hg. subst s1.
  destruct (getitems_opened rest h1 (set_rng g w1) x1 eq_refl) as (g' & Hg').
  destruct (getitems rest (h1, set_rng g w1)) as [rs s2].
  cbn [snd] in Hg'. subst s2.
  cbn [fst snd]. repeat split.
Qed.

End HandleHistory.

Lemma append_cons (c : Ascii.ascii) (a b : string) :
  (String c a ++ b)%string = String c (a ++ b)%string.
Proof. reflexivity. Qed.

Lemma append_nil (b : string) : ("" ++ b)%string = b.
Proof. reflexivity. Qed.

Lemma append_cancel_l (s a b : string) :
  (s ++ a)%string = (s ++ b)%string -> a = b.
Proof.
  induction s as [|c s IH]; rewrite ?append_nil, ?append_cons; [easy|].
  intros [= E]. now apply IH.
Qed.

Lemma append_length (a b : string) :
  String.length (a ++ b) = (String.length a + String.length b)%nat.
Proof.
  induction a as [|c a IH]; rewrite ?append_nil, ?append_cons;
    [reflexivity|].
  cbn [String.length]. now rewrite IH.
Qed.

Lemma append_cancel_r (a b c : string) :
  (a ++ c)%string = (b ++ c)%string -> a = b.
Proof.
  revert b. induction a as [|x a IH]; intros [|y b] E.
  - reflexivity.
  - apply (f_equal String.length) in E. rewrite !append_length in E.
    cbn [String.length] in E. lia.
  - apply (f_equal String.length) in E. rewrite !append_length in E.
    cbn [String.length] in E. lia.
  - rewrite !append_cons in E. injection E as -> E. f_equal. now apply IH.
Qed.

(** X9.  [repr] names the archive: two handles have the same [repr]
    exactly when they have the same path. *)
Theorem repr_identifies_path (h1 h2 : ImageFolderLMDB.t) :
  ImageFolderLMDB.__repr__ h1 = ImageFolderLMDB.__repr__ h2 <->
  ImageFolderLMDB.db_path h1 = ImageFolderLMDB.db_path h2.
Proof.
  unfold ImageFolderLMDB.__repr__. split.
  - intros E. apply append_cancel_l in E. apply append_cancel_r in E.
    now apply append_cancel_l in E.
  - now intros ->.
Qed.

(** ** The handle on the concrete installation: failures and history *)

Section HandleRuns.
Import ImageFolderLMDB Scenario.

Lemma getitem_record_failures_witness :
  reads_from (codec := toy_codec) handle
    (world_with (Some archive_missing_record)) archive_missing_record
    (PInt 2) ["0"; "1"]%string /\
  seq_index ["0"; "1"]%string 1 = Ok "1"%string /\
  "1"%string <> ""%string /\
  archive_missing_record !! "1"%string = None /\
  fst (__getitem__ (codec := toy_codec) 1
         (handle, world_with (Some archive_missing_record)))
  = Raise TypeError.
Proof.
  assert (Hr : reads_from (codec := toy_codec) handle
                 (world_with (Some archive_missing_record))
                 archive_missing_record (PInt 2) ["0"; "1"]%string).
  { unfold reads_from. simpl. repeat split; reflexivity. }
  split; [exact Hr|]. split; [reflexivity|]. split; [discriminate|].
  split; [reflexivity|].
  destruct (getitem_record_failures (codec := toy_codec) handle
              (world_with (Some archive_missing_record))
              archive_missing_record (PInt 2) ["0"; "1"]%string 1 "1"%string
              Hr eq_refl) as (_ & Hmiss & _).
  exact (Hmiss ltac:(discriminate) eq_refl).
Defined.

Lemma getitem_open_failure_changes_nothing_witness :
  txn handle = None /\
  fs (world_with None) !! db_path handle = None /\
  __getitem__ (codec := toy_codec) 0 (handle, world_with None)
  = (Raise LmdbError, (handle, world_with None)).
Proof.
  split; [reflexivity|]. split; [reflexivity|].
  exact (getitem_open_failure_changes_nothing (codec := toy_codec) handle
           (world_with None) 0 eq_refl eq_refl).
Defined.

Lemma getitem_reread_failure_keeps_stale_index_witness :
  txn handle = None /\
  fs (world_with (Some archive_without_index)) !! db_path handle
  = Some archive_without_index /\
  loads (codec := toy_codec) (archive_without_index !! "__len__"%string)
  = Raise TypeError /\
  fst (__getitem__ (codec := toy_codec) 0
         (handle, world_with (Some archive_without_index)))
  = Raise TypeError /\
  length (fst (snd (__getitem__ (codec := toy_codec) 0
                      (handle, world_with (Some archive_without_index)))))
  = PInt 2 /\
  txn (fst (snd (__getitem__ (codec := toy_codec) 0
                   (handle, world_with (Some archive_without_index)))))
  <> None.
Proof.
  split; [reflexivity|]. split; [reflexivity|]. split; [reflexivity|].
  destruct (getitem_reread_failure_keeps_stale_index (codec := toy_codec)
              handle (world_with (Some archive_without_index))
              archive_without_index 0 eq_refl eq_refl) as (Hlen & _).
  rewrite (Hlen TypeError eq_refl). simpl. repeat split. discriminate.
Defined.

Lemma getitems_independent_of_history_witness :
  reads_from (codec := toy_codec) handle world_after_init archive (PInt 2)
    ["0"; "1"]%string /\
  deterministic (transform handle) /\
  deterministic (target_transform handle) /\
  fst (getitems (codec := toy_codec) [1; 5; 0] (handle, world_after_init))
  = map (fun i => fst (__getitem__ (codec := toy_codec) i
                         (handle, world_after_init))) [1; 5; 0].
Proof.
  assert (Hr : reads_from (codec := toy_codec) handle world_after_init
                 archive (PInt 2) ["0"; "1"]%string).
  { unfold reads_from. simpl. repeat split; reflexivity. }
  split; [exact Hr|].
  split; [exact none_deterministic|]. split; [exact none_deterministic|].
  exact (getitems_independent_of_history (codec := toy_codec) handle
           world_after_init archive (PInt 2) ["0"; "1"]%string [1; 5; 0]
           Hr none_deterministic none_deterministic).
Defined.

Lemma length_constant_over_gets_witness :
  __init__ (codec := toy_codec) db None None world
  = (Ok handle, world_after_init) /\
  __len__ (fst (snd (getitems (codec := toy_codec) [1; 5; 0]
                       (handle, world_after_init))))
  = PInt 2.
Proof.
  split; [reflexivity|].
  destruct (length_constant_over_gets (codec := toy_codec) db None None
              world_after_init world handle [1; 5; 0] eq_refl) as (Hlen & _).
  exact Hlen.
Defined.

End HandleRuns.

(** ** train: what a pass leaves in the meters and in the world *)

Section PassTheorems.
Context {loader : DataLoader} {torch : Torch}.



End PassTheorems.

(** ** The passes on the concrete installation *)

Section PassRuns.
Import Scenario.



End PassRuns.

(** ** The driver: failures before and in the passes, both backends *)

Section DriverFrame.
Context {codec : Codec} {torchvision : Torchvision} {loader : DataLoader}
  {torch : Torch} {numpy : Numpy}.
Import main.

(** Runs of [train] print nothing and leave the archives and the image
    folders alone. *)
Lemma train_runs_stdout ds w runs w2 :
  train_runs ds w runs w2 -> stdout w2 = stdout w.
Proof.
  induction 1 as [w|w r w1 rs w2 Et Hrs IH]; [reflexivity|].
  rewrite IH. destruct (train_frame ds w) as (done & reads & Hf).
  rewrite Et in Hf. simpl in Hf. now subst w1.
Qed.

Lemma train_runs_files ds w runs w2 :
  train_runs ds w runs w2 -> fs w2 = fs w /\ folders w2 = folders w.
Proof.
  induction 1 as [w|w r w1 rs w2 Et Hrs IH]; [now split|].
  destruct (train_frame ds w) as (done & reads & Hf).
  rewrite Et in Hf. simpl in Hf. subst w1. exact IH.
Qed.

(** [for _ in range(n1 + n2)] is [n1] passes and then [n2] more. *)
Lemma passes_add n1 n2 ds : forall a w,
  passes (n1 + n2) ds a w
  = bind (passes n1 ds a) (fun a' => passes n2 ds a') w.
Proof.
  induction n1 as [|n1 IH]; intros a w.
  - simpl. unfold bind, ret. now destruct (passes n2 ds a w).
  - simpl passes. unfold bind, lift_result in *.
    destruct (train.train ds w) as [[r|e] w1]; [|reflexivity].
    destruct (record_pass a (fst r) (snd r)) as [a'|e]; [|reflexivity].
    apply IH.
Qed.

(** The passes end with the exception of the first pass that fails,
    and nothing is printed. *)
Lemma passes_raise ds w runs wj e n :
  train_runs ds w runs wj ->
  (length runs < n)%nat ->
  fst (train.train ds wj) = Raise e ->
  fst (passes n ds acc0 w) = Raise e /\
  stdout (snd (passes n ds acc0 w)) = stdout w.
Proof.
  intros Hruns Hn Hfail.
  destruct (passes_runs ds w runs wj Hruns acc0 ltac:(now left)
              ltac:(now left)) as (tb & td & _ & _ & Ep).
  replace n with (length runs + S (n - S (length runs)))%nat by lia.
  rewrite passes_add. rewrite (bind_Ok _ _ _ _ _ Ep).
  simpl passes.
  destruct (train_frame ds wj) as (done & reads & Hf).
  destruct (train.train ds wj) as [[r|e'] w'] eqn:Et; simpl in Hfail;
    [discriminate|].
  injection Hfail as ->. simpl in Hf. subst w'.
  rewrite (bind_Raise _ _ _ _ _ Et).
  split; [reflexivity|]. simpl. exact (train_runs_stdout ds w runs wj Hruns).
Qed.

End DriverFrame.

Section DriverMore.
Context {codec : Codec} {torchvision : Torchvision} {loader : DataLoader}
  {torch : Torch} {numpy : Numpy}.
Import main.

(** X13.  When the dataset and the loader of a backend are constructed
    and one of its 10 passes fails - whether the loader or the training
    step raises -, the passes before it having returned, the loop body
    ends with that exception and has printed nothing: the summary of a
    backend is printed only after all its passes, so the timings of the
    passes that did run are lost. *)
Theorem backend_pass_failure (dir db b : string) (w w1 wj : World)
    (ds : Dataset) (runs : list (AverageMeter.t * AverageMeter.t)) (e : exn)
    (Hds : make_dataset dir db b w = (Ok ds, w1))
    (Hloader : loader_init ds = Ok tt)
    (Hruns : train_runs ds w1 runs wj)
    (Hj : (length runs < 10)%nat)
    (Hfail : fst (train.train ds wj) = Raise e) :
  fst (backend dir db b w) = Raise e /\
  stdout (snd (backend dir db b w)) = stdout w.
Proof.
  destruct (passes_raise ds w1 runs wj e 10 Hruns Hj Hfail) as (Hr & Hout).
  pose proof (make_dataset_silent dir db b w) as Hs.
  rewrite Hds in Hs. simpl in Hs.
  unfold backend. rewrite (bind_Ok _ _ _ _ _ Hds).
  rewrite (bind_Ok _ _ _ _ _ (new_loader_returns ds w1 Hloader)).
  destruct (passes 10 ds acc0 w1) as [r w2] eqn:Ep.
  cbn [fst snd] in Hr, Hout. subst r.
  rewrite (bind_Raise _ _ _ _ _ Ep). split; [reflexivity|].
  simpl. now rewrite Hout.
Qed.

(** X19.  When the dataset of a backend is constructed and its loader
    cannot be - [DataLoader(...)] raises, as it does on a dataset with
    nothing to sample from -, the loop body ends with that exception
    before any pass: nothing is trained, nothing is timed and nothing is
    printed, and the world is as the construction of the dataset left
    it. *)
Theorem backend_loader_failure (dir db b : string) (w w1 : World)
    (ds : Dataset) (e : exn)
    (Hds : make_dataset dir db b w = (Ok ds, w1))
    (Hloader : loader_init ds = Raise e) :
  backend dir db b w = (Raise e, w1) /\
  stdout w1 = stdout w /\ epoch w1 = epoch w /\ trained w1 = trained w /\
  clock w1 = clock w.
Proof.
  split.
  - unfold backend. rewrite (bind_Ok _ _ _ _ _ Hds).
    now rewrite (bind_Raise _ _ _ _ _ (new_loader_raises ds w1 e Hloader)).
  - assert (Hn : exists n, w1 = set_conns n w).
    { revert Hds. unfold make_dataset. destruct (String.eqb b "lmdb").
      - unfold bind, ret. intros Hds.
        destruct (ImageFolderLMDB.__init__ db _ None w) as [[h|e'] w'] eqn:Ei;
          [|discriminate].
        injection Hds as _ <-.
        destruct (init_inv _ _ _ _ _ _ Ei) as (A & l & k & _ & _ & _ & _ & ->).
        eauto.
      - unfold ImageFolder. destruct (decide (dir ∈ folders w));
          [|discriminate].
        intros [= _ <-]. exists (conns w). now destruct w. }
    destruct Hn as (n & ->). repeat split.
Qed.


(** X14.  With the model created, an archive at the path whose reserved
    entries unpickle, the image folder in place, both loaders constructed
    and nothing failing in the 10 passes of either backend, [main]
    returns after running the two backends in the order of [DBS]: 10
    passes on the archive dataset, its five summary lines, then 10 passes
    on the image-folder dataset - with the model as the first backend
    left it - and its five lines; 20 passes were started, and the model
    has been trained on the batches of all of them, from new. *)
Theorem main_runs_both_backends (dir db : string) (w : World)
    (A : gmap bytes bytes) (l k : pyobj) (bss1 bss2 : list (list batch))
    (Hmodel : model_setup = Ok tt)
    (Hfs : fs w !! db = Some A)
    (Hl : loads (A !! "__len__"%string) = Ok l)
    (Hk : loads (A !! "__keys__"%string) = Ok k)
    (Hdir : dir ∈ folders w)
    (Hloader1 : loader_init (LMDB (ImageFolderLMDB.mk db
                   (Some configured_transform) None l k None None)) = Ok tt)
    (Hloader2 : loader_init (Folder dir (Some configured_transform)) = Ok tt)
    (Hten1 : length bss1 = 10%nat)
    (Hten2 : length bss2 = 10%nat)
    (Hpasses1 : passes_succeed
                  (LMDB (ImageFolderLMDB.mk db (Some configured_transform)
                           None l k None None))
                  (epoch w) [] bss1)
    (Hpasses2 : passes_succeed (Folder dir (Some configured_transform))
                  (epoch w + 10) (concat bss1) bss2) :
  let ds1 := LMDB (ImageFolderLMDB.mk db (Some configured_transform) None
                     l k None None) in
  let ds2 := Folder dir (Some configured_transform) in
  exists runs1 runs2 w1 w2 w3 data1 batch1 data2 batch2,
    length runs1 = 10%nat /\ length runs2 = 10%nat /\
    train_runs ds1 w1 runs1 w2 /\
    train_runs ds2
      (set_stdout (stdout w ++ summary_lines "lmdb" runs1 data1 batch1) w2)
      runs2 w3 /\
    totals runs1 data1 batch1 /\ totals runs2 data2 batch2 /\
    main dir db w
    = (Ok tt,
       set_stdout (stdout w ++ summary_lines "lmdb" runs1 data1 batch1
                            ++ summary_lines "imagefolder" runs2 data2 batch2)
         w3) /\
    epoch w3 = (epoch w + 20)%nat /\
    trained w3 = concat bss1 ++ concat bss2.
Proof.
  intros ds1 ds2.
  set (w0 := set_trained [] w).
  assert (Hcreate : create_model w = (Ok tt, w0)).
  { unfold create_model, bind, lift_result. now rewrite Hmodel. }
  set (w1 := set_conns (S (conns w0)) w0).
  assert (Hds1 : make_dataset dir db "lmdb" w0 = (Ok ds1, w1)).
  { unfold make_dataset.
    change (String.eqb "lmdb" "lmdb") with true. cbv iota.
    now rewrite (bind_Ok _ _ _ _ _
                   (init_returns db (Some configured_transform) None w0 A l k
                      Hfs Hl Hk)). }
  destruct (passes_succeed_runs ds1 bss1 w1 Hpasses1)
    as (runs1 & w2 & Hlen1 & Hruns1 & Hep1 & Htr1 & Hout1).
  rewrite Hten1 in Hlen1, Hep1.
  destruct (backend_prints dir db "lmdb" w0 w1 ds1 runs1 w2 Hds1 Hloader1
              Hruns1 Hlen1 Hout1) as (data1 & batch1 & Ht1 & Hb1).
  change (stdout w0) with (stdout w) in Hb1.
  set (wa := set_stdout (stdout w ++ summary_lines "lmdb" runs1 data1 batch1)
               w2) in *.
  assert (Hframe : fs w2 = fs w /\ folders w2 = folders w)
    by exact (train_runs_files ds1 w1 runs1 w2 Hruns1).
  assert (Hds2 : make_dataset dir db "imagefolder" wa = (Ok ds2, wa)).
  { unfold make_dataset.
    change (String.eqb "imagefolder" "lmdb") with false. cbv iota.
    unfold ImageFolder.
    assert (Hin : dir ∈ folders wa).
    { unfold wa. simpl. destruct Hframe as [_ ->]. exact Hdir. }
    now destruct (decide (dir ∈ folders wa)). }
  assert (Hpasses2' : passes_succeed ds2 (epoch wa) (trained wa) bss2).
  { unfold wa. simpl. rewrite Hep1, Htr1. exact Hpasses2. }
  destruct (passes_succeed_runs ds2 bss2 wa Hpasses2')
    as (runs2 & w3 & Hlen2 & Hruns2 & Hep2 & Htr2 & Hout2).
  rewrite Hten2 in Hlen2, Hep2.
  destruct (backend_prints dir db "imagefolder" wa wa ds2 runs2 w3 Hds2
              Hloader2 Hruns2 Hlen2 Hout2) as (data2 & batch2 & Ht2 & Hb2).
  exists runs1, runs2, w1, w2, w3, data1, batch1, data2, batch2.
  split; [exact Hlen1|]. split; [exact Hlen2|]. split; [exact Hruns1|].
  split; [exact Hruns2|]. split; [exact Ht1|]. split; [exact Ht2|].
  split; [|split].
  - unfold main. rewrite (bind_Ok _ _ _ _ _ Hcreate).
    unfold DBS. simpl for_each.
    rewrite (bind_Ok _ _ _ _ _ Hb1). fold wa.
    rewrite (bind_Ok _ _ _ _ _ Hb2). unfold ret.
    unfold wa at 1. simpl. now rewrite <- app_assoc.
  - rewrite Hep2. unfold wa. simpl. rewrite Hep1. simpl. lia.
  - rewrite Htr2. unfold wa. simpl. now rewrite Htr1.
Qed.

End DriverMore.

(** ** The driver on the concrete installation: further runs *)

Section DriverMoreRuns.
Import main Scenario.

Lemma backend_pass_failure_witness :
  exists runs wj,
    make_dataset (codec := toy_codec) (torchvision := plain_stages) dir db
      "imagefolder" world
    = (Ok (Folder dir (Some (configured_transform (torchvision := plain_stages)))),
       world) /\
    loader_init (DataLoader := failing_in_fourth_pass)
      (Folder dir (Some (configured_transform (torchvision := plain_stages))))
    = Ok tt /\
    train_runs (loader := failing_in_fourth_pass) (torch := plain_training)
      (Folder dir (Some (configured_transform (torchvision := plain_stages))))
      world runs wj /\
    length runs = 3%nat /\
    fst (train.train (loader := failing_in_fourth_pass)
           (torch := plain_training)
           (Folder dir (Some (configured_transform (torchvision := plain_stages))))
           wj)
    = Raise UnidentifiedImageError /\
    fst (backend (codec := toy_codec) (torchvision := plain_stages)
           (loader := failing_in_fourth_pass) (torch := plain_training)
           (numpy := sequential_mean) dir db "imagefolder" world)
    = Raise UnidentifiedImageError /\
    stdout (snd (backend (codec := toy_codec) (torchvision := plain_stages)
                   (loader := failing_in_fourth_pass)
                   (torch := plain_training) (numpy := sequential_mean)
                   dir db "imagefolder" world))
    = [].
Proof.
  set (ds := Folder dir (Some (configured_transform (torchvision := plain_stages)))).
  set (tr := train.train (loader := failing_in_fourth_pass)
               (torch := plain_training) ds).
  set (w1 := snd (tr world)). set (w2 := snd (tr w1)). set (w3 := snd (tr w2)).
  set (r1 := match fst (tr world) with
             | Ok r => r
             | Raise _ => (AverageMeter.new, AverageMeter.new)
             end).
  set (r2 := match fst (tr w1) with
             | Ok r => r
             | Raise _ => (AverageMeter.new, AverageMeter.new)
             end).
  set (r3 := match fst (tr w2) with
             | Ok r => r
             | Raise _ => (AverageMeter.new, AverageMeter.new)
             end).
  assert (E1 : tr world = (Ok r1, w1)) by (vm_compute; reflexivity).
  assert (E2 : tr w1 = (Ok r2, w2)) by (vm_compute; reflexivity).
  assert (E3 : tr w2 = (Ok r3, w3)) by (vm_compute; reflexivity).
  assert (Hruns : train_runs (loader := failing_in_fourth_pass)
                    (torch := plain_training) ds world [r1; r2; r3] w3).
  { eapply runs_cons; [exact E1|]. eapply runs_cons; [exact E2|].
    eapply runs_cons; [exact E3|]. apply runs_nil. }
  assert (Hfail : fst (tr w3) = Raise UnidentifiedImageError)
    by (vm_compute; reflexivity).
  assert (Hds : make_dataset (codec := toy_codec) (torchvision := plain_stages)
                  dir db "imagefolder" world = (Ok ds, world))
    by (vm_compute; reflexivity).
  assert (Hl : loader_init (DataLoader := failing_in_fourth_pass) ds = Ok tt)
    by reflexivity.
  assert (Hj : (length [r1; r2; r3] < 10)%nat) by (simpl; lia).
  exists [r1; r2; r3], w3.
  split; [exact Hds|]. split; [exact Hl|]. split; [exact Hruns|].
  split; [reflexivity|]. split; [exact Hfail|].
  exact (backend_pass_failure (codec := toy_codec)
           (torchvision := plain_stages) (loader := failing_in_fourth_pass)
           (torch := plain_training) (numpy := sequential_mean)
           dir db "imagefolder" world world w3 ds [r1; r2; r3]
           UnidentifiedImageError Hds Hl Hruns Hj Hfail).
Defined.

Lemma backend_loader_failure_witness :
  make_dataset (codec := toy_codec) (torchvision := plain_stages) dir db "lmdb"
    (world_with (Some archive_empty))
  = (Ok (LMDB empty_handle), set_conns 1 (world_with (Some archive_empty))) /\
  loader_init (DataLoader := every_batch) (LMDB empty_handle)
  = Raise ValueError /\
  backend (codec := toy_codec) (torchvision := plain_stages)
    (loader := every_batch) (torch := plain_training)
    (numpy := sequential_mean) dir db "lmdb"
    (world_with (Some archive_empty))
  = (Raise ValueError, set_conns 1 (world_with (Some archive_empty))).
Proof.
  assert (Hds : make_dataset (codec := toy_codec) (torchvision := plain_stages)
                  dir db "lmdb" (world_with (Some archive_empty))
                = (Ok (LMDB empty_handle),
                   set_conns 1 (world_with (Some archive_empty))))
    by reflexivity.
  assert (Hl : loader_init (DataLoader := every_batch) (LMDB empty_handle)
               = Raise ValueError) by reflexivity.
  split; [exact Hds|]. split; [exact Hl|].
  exact (proj1 (backend_loader_failure (codec := toy_codec)
                  (torchvision := plain_stages) (loader := every_batch)
                  (torch := plain_training) (numpy := sequential_mean)
                  dir db "lmdb" (world_with (Some archive_empty)) _
                  (LMDB empty_handle) ValueError Hds Hl)).
Defined.


Lemma scenario_folder : dir ∈ folders world.
Proof. vm_compute. reflexivity. Defined.

Lemma main_runs_both_backends_witness :
  let bss1 := repeat [[sample0; sample1]] 10 in
  let bss2 := repeat [repeat sample0 128; [sample0; sample1]] 10 in
  model_setup (Torch := plain_training) = Ok tt /\
  fs world !! db = Some archive /\
  dir ∈ folders world /\
  passes_succeed (loader := every_batch) (torch := plain_training)
    (LMDB configured_handle) (epoch world) [] bss1 /\
  passes_succeed (loader := every_batch) (torch := plain_training)
    (Folder dir (Some (configured_transform (torchvision := plain_stages))))
    (epoch world + 10) (concat bss1) bss2 /\
  exists w',
    main (codec := toy_codec) (torchvision := plain_stages)
      (loader := every_batch) (torch := plain_training)
      (numpy := sequential_mean) dir db world = (Ok tt, w') /\
    epoch w' = 20%nat /\
    length (stdout w') = 10%nat /\
    length (trained w') = 30%nat.
Proof.
  intros bss1 bss2.
  assert (Hp1 : passes_succeed (loader := every_batch)
                  (torch := plain_training) (LMDB configured_handle)
                  (epoch world) [] bss1).
  { simpl. unfold pass_succeeds. simpl. repeat split; reflexivity. }
  assert (Hp2 : passes_succeed (loader := every_batch)
                  (torch := plain_training)
                  (Folder dir
                     (Some (configured_transform (torchvision := plain_stages))))
                  (epoch world + 10) (concat bss1) bss2).
  { simpl. unfold pass_succeeds. simpl. repeat split; reflexivity. }
  split; [reflexivity|]. split; [reflexivity|].
  split; [exact scenario_folder|]. split; [exact Hp1|]. split; [exact Hp2|].
  destruct (main_runs_both_backends (codec := toy_codec)
              (torchvision := plain_stages) (loader := every_batch)
              (torch := plain_training) (numpy := sequential_mean)
              dir db world archive (PInt 2) (PList [PBytes "0"; PBytes "1"])
              bss1 bss2 eq_refl eq_refl eq_refl eq_refl scenario_folder
              eq_refl eq_refl eq_refl eq_refl Hp1 Hp2)
    as (runs1 & runs2 & w1 & w2 & w3 & d1 & b1 & d2 & b2
        & _ & _ & _ & _ & _ & _ & Hmain & Hep & Htr).
  eexists. split; [exact Hmain|]. split; [exact Hep|].
  split; [reflexivity|]. simpl. rewrite Htr. reflexivity.
Defined.

End DriverMoreRuns.

(** ** save_checkpoint *)

Section CheckpointFacts.
Import checkpoint.
Context {State File : Type} `{Countable File}.
Variable resolve : string -> File.
Variable cannot_write : string -> option exn.


End CheckpointFacts.


Section GetFrame.
Context {codec : Codec}.
Import ImageFolderLMDB.

(** X17.  Whatever the handle, the world and the index, and whatever the
    outcome, [get] leaves the archives, the image folders, the clock, the
    pass counter and the output as they are: in the world it can only
    advance the random generator and, on a handle without connection,
    open one environment. *)
Theorem getitem_touches_only_rng_and_connections (h : t) (w : World) (i : Z) :
  exists n g,
    snd (snd (__getitem__ i (h, w))) = set_rng g (set_conns n w) /\
    (conns w <= n <= S (conns w))%nat /\
    (txn h <> None -> n = conns w).
Proof.
  destruct (txn h) as [x|] eqn:Ex.
  - rewrite (getitem_opened i h w x Ex).
    destruct (fetch_state i h w) as (g & Hg).
    exists (conns w), g. rewrite Hg. simpl.
    split; [now destruct w|]. split; [lia | reflexivity].
  - destruct (fs w !! db_path h) as [A|] eqn:Efs.
    + destruct (getitem_keeps_txn i h w A Ex Efs) as (h' & g & Hs & _).
      exists (S (conns w)), g. rewrite Hs. simpl.
      split; [reflexivity|]. split; [lia | easy].
    + rewrite (getitem_unavailable h w i Ex Efs).
      exists (conns w), (rng w). simpl.
      split; [now destruct w|]. split; [lia | easy].
Qed.

End GetFrame.
